(** * Lucid Sandbox Agent: a shallow embedding of the executor and its HTTP front

    The development follows the TypeScript sources:
    - [src/lib/config.ts]      environment-sourced configuration ([CONFIG], [PRICING]);
    - [src/lib/sandbox.ts]     [TIER_LIMITS] and the class [SandboxExecutor]
                               ([execute], [executeJavaScript], [generateProof],
                               [verifyProof]);
    - [src/routes/execute.ts]  [ExecuteRequestSchema] and [executeHandler];
    - [src/index.ts]           the wiring of [POST /api/execute].

    Conventions.  A JavaScript string is a [string] whose characters are the
    UTF-16 code units below 256.  Clock readings, heap sizes and timeouts are
    integral numbers of milliseconds or bytes and live in [Z]; prices are
    JavaScript numbers read by [parseFloat] and are kept as exact rationals
    (rounding to a double is monotone, so an order proved on the exact values
    also holds on the doubles).  Everything the host supplies (the clock, the
    random bytes behind [nanoid], the behaviour of the isolated-vm library) is
    an explicit oracle, and the mutable part of the host is threaded through a
    small state-and-exception monad. *)

From Stdlib Require Import ZArith QArith Ascii String List Lia.
From stdpp Require Import base option list strings gmap.

Local Open Scope string_scope.
Local Open Scope list_scope.
Local Open Scope Z_scope.

(* ===================================================================== *)
(** * Part I: definitions *)
(* ===================================================================== *)

(** ** JavaScript numbers and [parseFloat] *)

Inductive number : Type :=
  | NaN
  | NegInfinity
  | Num (q : Q)
  | PosInfinity.

(** [a <= b] on JavaScript numbers: every comparison with [NaN] is false. *)
Definition num_leb (a b : number) : bool :=
  match a, b with
  | NaN, _ | _, NaN => false
  | NegInfinity, _ => true
  | _, PosInfinity => true
  | Num x, Num y => Qle_bool x y
  | _, _ => false
  end.

Definition code_of (c : ascii) : Z := Z.of_nat (nat_of_ascii c).

Definition is_digit (c : ascii) : bool :=
  (48 <=? code_of c) && (code_of c <=? 57).

(** StrWhiteSpaceChar restricted to code units below 256. *)
Definition is_js_space (c : ascii) : bool :=
  let n := code_of c in
  ((9 <=? n) && (n <=? 13)) || (n =? 32) || (n =? 160).

Fixpoint skip_space (s : string) : string :=
  match s with
  | String c r => if is_js_space c then skip_space r else s
  | EmptyString => s
  end.

(** The longest run of decimal digits at the head of [s], and what follows. *)
Fixpoint take_digits (s : string) : list Z * string :=
  match s with
  | String c r =>
      if is_digit c
      then let '(ds, rest) := take_digits r in ((code_of c - 48) :: ds, rest)
      else ([], s)
  | EmptyString => ([], s)
  end.

Definition digits_value (ds : list Z) : Z :=
  fold_left (fun acc d => 10 * acc + d) ds 0.

Definition strip_sign (s : string) : bool * string :=
  match s with
  | String "-" r => (true, r)
  | String "+" r => (false, r)
  | _ => (false, s)
  end.

(** The exponent part [e[+-]ddd] of a decimal literal; 0 when there is none. *)
Definition exponent_part (s : string) : Z :=
  match s with
  | String c r =>
      if (code_of c =? 101) || (code_of c =? 69)
      then let '(neg, r') := strip_sign r in
           match take_digits r' with
           | ([], _) => 0
           | (ds, _) => if neg then - digits_value ds else digits_value ds
           end
      else 0
  | EmptyString => 0
  end.

(** [m * 10^e] as an exact rational. *)
Definition scale10 (m e : Z) : Q :=
  if 0 <=? e then Qmake (m * 10 ^ e) 1 else Qmake m (Z.to_pos (10 ^ (- e))).

(** [parseFloat]: leading white space, an optional sign, then [Infinity] or
    the longest prefix that is a decimal literal; [NaN] when there is none. *)
Definition parseFloat (s : string) : number :=
  let '(neg, s1) := strip_sign (skip_space s) in
  if String.prefix "Infinity" s1
  then (if neg then NegInfinity else PosInfinity)
  else
    let '(ip, s2) := take_digits s1 in
    let '(fp, s3) := match s2 with
                     | String "." r => take_digits r
                     | _ => ([], s2)
                     end in
    match ip ++ fp with
    | [] => NaN
    | ds =>
        let m := digits_value ds in
        Num (scale10 (if neg then - m else m)
                     (exponent_part s3 - Z.of_nat (length fp)))
    end.

(** ** The process environment and [config.ts] *)

(** [process.env.K || d]: an unset variable and the empty string are both
    falsy. *)
Definition env_or (env : gmap string string) (k d : string) : string :=
  match env !! k with
  | Some EmptyString | None => d
  | Some v => v
  end.

(** [s.split(sep)] for a one-character separator. *)
Fixpoint split_on (sep : ascii) (s : string) : list string :=
  match s with
  | EmptyString => [EmptyString]
  | String c r =>
      if Ascii.eqb c sep then EmptyString :: split_on sep r
      else match split_on sep r with
           | w :: ws => String c w :: ws
           | [] => [String c EmptyString]
           end
  end.

Record WalletAddresses := { base : string; ethereum : string; solana : string }.

Record BaseNetwork := { name : string; usdcAddress : string }.

Record Pricing := { price_basic : number; price_standard : number; price_premium : number }.

Record SandboxLimits := { allowedLanguages : list string }.

Record Config := {
  wallets : WalletAddresses;
  network : BaseNetwork;
  pricing : Pricing;
  sandbox : SandboxLimits
}.

Definition WALLET_ADDRESSES (env : gmap string string) : WalletAddresses :=
  {| base := env_or env "AGENT_WALLET_ADDRESS_BASE" "0x11c24Fbcd702cd611729F8402d8fB51ECa75Ba83";
     ethereum := env_or env "AGENT_WALLET_ADDRESS_ETH" "0x11c24Fbcd702cd611729F8402d8fB51ECa75Ba83";
     solana := env_or env "AGENT_WALLET_ADDRESS_SOLANA" "2x4BRUreTFZCaCKbGKVXFYD5p2ZUBpYaYjuYsw9KYhf3" |}.

Definition BASE_NETWORK (env : gmap string string) : BaseNetwork :=
  {| name := "base";
     usdcAddress := env_or env "USDC_CONTRACT_ADDRESS" "0x833589fCD6eDb6E08f4c7C32D4f71b54bdA02913" |}.

Definition PRICING (env : gmap string string) : Pricing :=
  {| price_basic := parseFloat (env_or env "BASIC_EXECUTION_PRICE" "0.01");
     price_standard := parseFloat (env_or env "STANDARD_EXECUTION_PRICE" "0.02");
     price_premium := parseFloat (env_or env "PREMIUM_EXECUTION_PRICE" "0.05") |}.

Definition SANDBOX_LIMITS (env : gmap string string) : SandboxLimits :=
  {| allowedLanguages := split_on "," (env_or env "ALLOWED_LANGUAGES" "javascript,python") |}.

Definition CONFIG (env : gmap string string) : Config :=
  {| wallets := WALLET_ADDRESSES env;
     network := BASE_NETWORK env;
     pricing := PRICING env;
     sandbox := SANDBOX_LIMITS env |}.

(** ** Tiers and [TIER_LIMITS] *)

Inductive Tier : Type := basic | standard | premium.

Inductive Language : Type := javascript | python.

Definition tier_name (t : Tier) : string :=
  match t with basic => "basic" | standard => "standard" | premium => "premium" end.

Definition language_name (l : Language) : string :=
  match l with javascript => "javascript" | python => "python" end.

(** The order basic < standard < premium. *)
Definition tier_rank (t : Tier) : nat :=
  match t with basic => 0 | standard => 1 | premium => 2 end.

Definition tier_lt (t1 t2 : Tier) : Prop := (tier_rank t1 < tier_rank t2)%nat.

Record TierLimits := { timeout : Z; memory : Z; features : list string }.

Definition TIER_LIMITS (t : Tier) : TierLimits :=
  match t with
  | basic => {| timeout := 10000; memory := 64; features := ["console.log"] |}
  | standard => {| timeout := 30000; memory := 128;
                   features := ["console.log"; "Math"; "Date"] |}
  | premium => {| timeout := 60000; memory := 256;
                  features := ["console.log"; "Math"; "Date"; "JSON"] |}
  end.

(** [PRICING[t]]. *)
Definition price (p : Pricing) (t : Tier) : number :=
  match t with
  | basic => price_basic p
  | standard => price_standard p
  | premium => price_premium p
  end.

(** ** Requests and results of the executor *)

Record ExecutionRequest := {
  req_code : string;
  req_language : Language;
  req_tier : Tier;
  req_timeout : option Z
}.

Record ExecutionResult := {
  success : bool;
  output : string;
  error : option string;
  executionTime : Z;
  memoryUsed : Z;
  proof : string;
  executionId : string;
  tier : string
}.

(** [x || d] on an optional integer: [undefined] and [0] are falsy. *)
Definition or_else (x : option Z) (d : Z) : Z :=
  match x with
  | Some 0 | None => d
  | Some v => v
  end.

Definition Math_min (a b : Z) : Z := Z.min a b.

(** Step 3 of [execute]: the timeout handed to the isolate. *)
Definition execute_timeout (request : ExecutionRequest) : Z :=
  let tierLimits := TIER_LIMITS (req_tier request) in
  Math_min (or_else (req_timeout request) (timeout tierLimits)) (timeout tierLimits).

(** ** SHA-256 ([createHash('sha256').update(s).digest('hex')])

    Words are integers in [0, 2^32); every sum is reduced with [wrap32]. *)

Definition wrap32 (x : Z) : Z := Z.land x 0xFFFFFFFF.

Definition rotr (n x : Z) : Z :=
  Z.lor (Z.shiftr x n) (wrap32 (Z.shiftl x (32 - n))).

Definition not32 (x : Z) : Z := Z.lxor x 0xFFFFFFFF.

Definition Ch (x y z : Z) : Z := Z.lxor (Z.land x y) (Z.land (not32 x) z).

Definition Maj (x y z : Z) : Z :=
  Z.lxor (Z.lxor (Z.land x y) (Z.land x z)) (Z.land y z).

Definition big_sigma0 (x : Z) : Z := Z.lxor (Z.lxor (rotr 2 x) (rotr 13 x)) (rotr 22 x).
Definition big_sigma1 (x : Z) : Z := Z.lxor (Z.lxor (rotr 6 x) (rotr 11 x)) (rotr 25 x).
Definition small_sigma0 (x : Z) : Z := Z.lxor (Z.lxor (rotr 7 x) (rotr 18 x)) (Z.shiftr x 3).
Definition small_sigma1 (x : Z) : Z := Z.lxor (Z.lxor (rotr 17 x) (rotr 19 x)) (Z.shiftr x 10).

(** The round constants are the first 32 bits of the fractional parts of the
    cube roots of the first 64 primes, the initial hash value those of the
    square roots of the first 8. *)
Definition first_primes : list Z :=
  [2; 3; 5; 7; 11; 13; 17; 19; 23; 29; 31; 37; 41; 43; 47; 53; 59; 61; 67;
   71; 73; 79; 83; 89; 97; 101; 103; 107; 109; 113; 127; 131; 137; 139; 149;
   151; 157; 163; 167; 173; 179; 181; 191; 193; 197; 199; 211; 223; 227; 229;
   233; 239; 241; 251; 257; 263; 269; 271; 277; 281; 283; 293; 307; 311].

(** Integer cube root, one bit at a time from bit [bits - 1] down. *)
Fixpoint icbrt_from (bits : nat) (n r : Z) : Z :=
  match bits with
  | O => r
  | S k =>
      let r' := r + 2 ^ Z.of_nat k in
      icbrt_from k n (if r' * r' * r' <=? n then r' else r)
  end.

Definition round_constants : list Z :=
  Eval vm_compute in
    map (fun p => wrap32 (icbrt_from 36 (p * 2 ^ 96) 0)) first_primes.

Record Regs := {
  ra : Z; rb : Z; rc : Z; rd : Z; re : Z; rf : Z; rg : Z; rh : Z
}.

Definition initial_hash : Regs :=
  Eval vm_compute in
    let h p := wrap32 (Z.sqrt (p * 2 ^ 64)) in
    {| ra := h 2; rb := h 3; rc := h 5; rd := h 7;
       re := h 11; rf := h 13; rg := h 17; rh := h 19 |}.

(** One round: [w] is the schedule word of the round, [k] its constant. *)
Definition sha_round (r : Regs) (k w : Z) : Regs :=
  let t1 := rh r + big_sigma1 (re r) + Ch (re r) (rf r) (rg r) + k + w in
  let t2 := big_sigma0 (ra r) + Maj (ra r) (rb r) (rc r) in
  {| ra := wrap32 (t1 + t2); rb := ra r; rc := rb r; rd := rc r;
     re := wrap32 (rd r + t1); rf := re r; rg := rf r; rh := rg r |}.

(** The 64 rounds over a sliding window of sixteen schedule words. *)
Fixpoint sha_rounds (ks : list Z) (win : list Z) (r : Regs) : Regs :=
  match ks with
  | [] => r
  | k :: ks' =>
      let w := nth 0 win 0 in
      let next := wrap32 (small_sigma1 (nth 14 win 0) + nth 9 win 0
                          + small_sigma0 (nth 1 win 0) + w) in
      sha_rounds ks' (tail win ++ [next]) (sha_round r k w)
  end.

Definition sha_block (h : Regs) (block : list Z) : Regs :=
  let r := sha_rounds round_constants block h in
  {| ra := wrap32 (ra h + ra r); rb := wrap32 (rb h + rb r);
     rc := wrap32 (rc h + rc r); rd := wrap32 (rd h + rd r);
     re := wrap32 (re h + re r); rf := wrap32 (rf h + rf r);
     rg := wrap32 (rg h + rg r); rh := wrap32 (rh h + rh r) |}.

(** Big-endian words out of bytes, four at a time. *)
Fixpoint words_of_bytes (bs : list Z) : list Z :=
  match bs with
  | b0 :: b1 :: b2 :: b3 :: rest =>
      (Z.shiftl b0 24 + Z.shiftl b1 16 + Z.shiftl b2 8 + b3) :: words_of_bytes rest
  | _ => []
  end.

Fixpoint sha_blocks (n : nat) (h : Regs) (ws : list Z) : Regs :=
  match n with
  | O => h
  | S n' => sha_blocks n' (sha_block h (take 16 ws)) (drop 16 ws)
  end.

(** The message followed by the byte 0x80, zero bytes up to 56 modulo 64 and
    the bit length on eight bytes. *)
Definition sha_pad (msg : list Z) : list Z :=
  let len := Z.of_nat (length msg) in
  let zeros := Z.to_nat ((55 - len) mod 64) in
  let bits := 8 * len in
  msg ++ [128] ++ repeat 0 zeros
      ++ map (fun i => Z.land (Z.shiftr bits (8 * i)) 255) [7; 6; 5; 4; 3; 2; 1; 0].

Definition sha256 (msg : list Z) : Regs :=
  let ws := words_of_bytes (sha_pad msg) in
  sha_blocks (length ws / 16) initial_hash ws.

Definition hex_digit (n : Z) : ascii :=
  ascii_of_nat (Z.to_nat (if n <? 10 then 48 + n else 87 + n)).

Definition nibble (w i : Z) : ascii := hex_digit (Z.land (Z.shiftr w (4 * i)) 15).

Definition hex8 (w : Z) (tl : string) : string :=
  String (nibble w 7) (String (nibble w 6) (String (nibble w 5) (String (nibble w 4)
  (String (nibble w 3) (String (nibble w 2) (String (nibble w 1) (String (nibble w 0) tl))))))).

Definition digest_hex (r : Regs) : string :=
  hex8 (ra r) (hex8 (rb r) (hex8 (rc r) (hex8 (rd r)
  (hex8 (re r) (hex8 (rf r) (hex8 (rg r) (hex8 (rh r) EmptyString))))))).

(** UTF-8 of a string of code units below 256. *)
Fixpoint utf8 (s : string) : list Z :=
  match s with
  | EmptyString => []
  | String c r =>
      let n := code_of c in
      if n <? 128 then n :: utf8 r
      else Z.lor 192 (Z.shiftr n 6) :: Z.lor 128 (Z.land n 63) :: utf8 r
  end.

Definition sha256_hex (s : string) : string := digest_hex (sha256 (utf8 s)).

(** ** JSON values and [JSON.stringify] *)

#[warnings="-register-all"] Inductive json : Type :=
  | JUndefined
  | JNull
  | JBool (b : bool)
  | JNumber (z : Z)
  | JString (s : string)
  | JArray (items : list json)
  | JObject (fields : list (string * json)).

(** An object is the list of its own properties in insertion order; keys are
    distinct and none is an array index. *)

Definition digit_char (d : Z) : ascii := ascii_of_nat (Z.to_nat (48 + d)).

Fixpoint decimal_digits (fuel : nat) (n : Z) (acc : string) : string :=
  match fuel with
  | O => acc
  | S f =>
      let acc' := String (digit_char (n mod 10)) acc in
      if n <? 10 then acc' else decimal_digits f (n / 10) acc'
  end.

(** [String(n)] for an integer [n]. *)
Definition Z_to_string (z : Z) : string :=
  if z <? 0
  then String "-" (decimal_digits (S (Z.to_nat (Z.log2 (- z)))) (- z) EmptyString)
  else decimal_digits (S (Z.to_nat (Z.log2 z))) z EmptyString.

Definition dquote : ascii := "034"%char.
Definition backslash : ascii := "092"%char.
Definition newline : ascii := "010"%char.

Definition json_escape_char (c : ascii) (tl : string) : string :=
  let n := code_of c in
  if n =? 34 then String backslash (String dquote tl)
  else if n =? 92 then String backslash (String backslash tl)
  else if n =? 8 then String backslash (String "b" tl)
  else if n =? 12 then String backslash (String "f" tl)
  else if n =? 10 then String backslash (String "n" tl)
  else if n =? 13 then String backslash (String "r" tl)
  else if n =? 9 then String backslash (String "t" tl)
  else if n <? 32
       then String backslash (String "u" (String "0" (String "0"
              (String (nibble n 1) (String (nibble n 0) tl)))))
  else String c tl.

Fixpoint json_escape (s : string) : string :=
  match s with
  | EmptyString => EmptyString
  | String c r => json_escape_char c (json_escape r)
  end.

Definition json_quote (s : string) : string :=
  String dquote (json_escape s +:+ String dquote EmptyString).

Fixpoint join (sep : string) (l : list string) : string :=
  match l with
  | [] => EmptyString
  | [x] => x
  | x :: rest => x +:+ sep +:+ join sep rest
  end.

(** [JSON.stringify v]; [None] stands for the result [undefined].  A property
    whose value is [undefined] is left out, an [undefined] array item is
    printed as [null]. *)
Fixpoint stringify (v : json) : option string :=
  match v with
  | JUndefined => None
  | JNull => Some "null"
  | JBool b => Some (if b then "true" else "false")
  | JNumber z => Some (Z_to_string z)
  | JString s => Some (json_quote s)
  | JArray items =>
      Some ("[" +:+ join "," (map (fun i => default "null" (stringify i)) items) +:+ "]")
  | JObject fields =>
      Some ("{" +:+ join "," (omap (fun kv => (fun s => json_quote (fst kv) +:+ ":" +:+ s)
                                              <$> stringify (snd kv)) fields) +:+ "}")
  end.

Definition JSON_stringify (v : json) : string := default "undefined" (stringify v).

(** [{...o, k: v}]: an existing key keeps its place, a new one goes last. *)
Fixpoint obj_set (k : string) (v : json) (o : list (string * json)) : list (string * json) :=
  match o with
  | [] => [(k, v)]
  | (k', v') :: r => if String.eqb k k' then (k, v) :: r else (k', v') :: obj_set k v r
  end.

(** [o.k] *)
Fixpoint obj_get (k : string) (o : list (string * json)) : json :=
  match o with
  | [] => JUndefined
  | (k', v) :: r => if String.eqb k k' then v else obj_get k r
  end.

(** ** String helpers of the executor *)

(** [s.includes(needle)] *)
Fixpoint includes (needle s : string) : bool :=
  String.prefix needle s
  || match s with
     | EmptyString => false
     | String _ r => includes needle r
     end.

Fixpoint trimEnd (s : string) : string :=
  match s with
  | EmptyString => EmptyString
  | String c r =>
      match trimEnd r with
      | EmptyString => if is_js_space c then EmptyString else String c EmptyString
      | r' => String c r'
      end
  end.

(** [s.trim()] *)
Definition trim (s : string) : string := trimEnd (skip_space s).

(** ** The host: clock, random bytes, isolated-vm *)

(** A thrown value: an [Error] whose [message] may be missing. *)
Record JsError := { message : option string }.

Definition Error (msg : string) : JsError := {| message := Some msg |}.

Inductive outcome (A : Type) : Type :=
  | Returned (a : A)
  | Thrown (e : JsError).
Arguments Returned {A} a.
Arguments Thrown {A} e.

(** What [script.run] did: the messages passed to the injected [log], in
    order, and the error it ended with, if any. *)
Record RunOutcome := { logged : list string; failure : option JsError }.

(** The isolated-vm library, indexed by the isolate it is asked about. *)
Record IsolatedVm := {
  ivm_construct : nat -> Z -> option JsError;
  ivm_createContext : nat -> option JsError;
  ivm_global_set : nat -> option JsError;
  ivm_compileScript : nat -> string -> option JsError;
  ivm_run : nat -> string -> Z -> RunOutcome;
  ivm_used_heap_size : nat -> outcome Z
}.

(** A payment accepted by the x402 layer, as the handler reads it from
    [req.x402Payment]. *)
Record X402Payment := {
  verified : bool;
  amount : number;
  payer : string;
  transactionHash : string
}.

Record Host := {
  host_env : gmap string string;
  (** the answer of the n-th call of [Date.now()] *)
  host_clock : nat -> Z;
  (** the n-th byte of the random pool behind [nanoid] *)
  host_random : nat -> Z;
  host_ivm : IsolatedVm;
  (** verification and settlement of a payment header against a required
      amount and payee: the accepted payment, or the reason of the refusal *)
  host_settle : string -> number -> string -> X402Payment + string
}.

Record Isolate := {
  memoryLimit : Z;
  disposed : bool;
  (** the timeouts of the runs started in this isolate *)
  run_timeouts : list Z
}.

Record State := {
  ticks : nat;
  drawn : nat;
  isolates : list Isolate
}.

(** ** The state-and-exception monad *)

Definition M (A : Type) : Type := State -> outcome A * State.

Definition ret {A} (a : A) : M A := fun s => (Returned a, s).

Definition throw {A} (e : JsError) : M A := fun s => (Thrown e, s).

Definition bind {A B} (m : M A) (k : A -> M B) : M B :=
  fun s =>
    match m s with
    | (Returned a, s') => k a s'
    | (Thrown e, s') => (Thrown e, s')
    end.

(** [try { body } catch (e) { handler e }]: the effects of [body] up to the
    throw are kept. *)
Definition try_catch {A} (body : M A) (handler : JsError -> M A) : M A :=
  fun s =>
    match body s with
    | (Returned a, s') => (Returned a, s')
    | (Thrown e, s') => handler e s'
    end.

Notation "x <~ m ;; k" := (bind m (fun x => k))
  (at level 100, m at next level, right associativity).

Notation "m ;;; k" := (bind m (fun _ => k))
  (at level 100, right associativity).

(** [if (c) throw e;] *)
Definition throw_if (c : bool) (e : JsError) : M unit :=
  if c then throw e else ret tt.

Definition Date_now (h : Host) : M Z :=
  fun s => (Returned (host_clock h (ticks s)),
            {| ticks := S (ticks s); drawn := drawn s; isolates := isolates s |}).

Definition urlAlphabet : string :=
  "useandom-26T198340PX75pxJACKVERYMINDBUSHWOLF_GQZbfghjklqvwyzrict".

Definition alphabet_at (i : Z) : ascii :=
  default "u"%char (String.get (Z.to_nat i) urlAlphabet).

Fixpoint nanoid_from (h : Host) (size : nat) (pos : nat) : string :=
  match size with
  | O => EmptyString
  | S k => String (alphabet_at (Z.land (host_random h pos) 63)) (nanoid_from h k (S pos))
  end.

(** [nanoid(size)]: one symbol of [urlAlphabet] per random byte. *)
Definition nanoid (h : Host) (size : nat) : M string :=
  fun s => (Returned (nanoid_from h size (drawn s)),
            {| ticks := ticks s; drawn := (drawn s + size)%nat; isolates := isolates s |}).

Definition with_isolates (s : State) (l : list Isolate) : State :=
  {| ticks := ticks s; drawn := drawn s; isolates := l |}.

(** [new ivm.Isolate({ memoryLimit })]: the handle is the isolate's index. *)
Definition new_Isolate (h : Host) (limit : Z) : M nat :=
  fun s =>
    let i := length (isolates s) in
    match ivm_construct (host_ivm h) i limit with
    | Some e => (Thrown e, s)
    | None =>
        (Returned i,
         with_isolates s (isolates s ++ [{| memoryLimit := limit; disposed := false;
                                            run_timeouts := [] |}]))
    end.

Definition ivm_call (r : option JsError) : M unit :=
  match r with
  | Some e => throw e
  | None => ret tt
  end.

(** [script.run(context, { timeout })] *)
Definition script_run (h : Host) (i : nat) (source : string) (tmo : Z) : M (list string) :=
  fun s =>
    let s' := with_isolates s
                (alter (fun iso => {| memoryLimit := memoryLimit iso;
                                       disposed := disposed iso;
                                       run_timeouts := run_timeouts iso ++ [tmo] |})
                       i (isolates s)) in
    let r := ivm_run (host_ivm h) i source tmo in
    match failure r with
    | Some e => (Thrown e, s')
    | None => (Returned (logged r), s')
    end.

Definition getHeapStatisticsSync (h : Host) (i : nat) : M Z :=
  fun s => (ivm_used_heap_size (host_ivm h) i, s).

(** [isolate.dispose()]: throws on an isolate that is already disposed. *)
Definition dispose (i : nat) : M unit :=
  fun s =>
    match isolates s !! i with
    | Some iso =>
        if disposed iso then (Thrown (Error "Isolate is already disposed"), s)
        else (Returned tt,
              with_isolates s (<[i := {| memoryLimit := memoryLimit iso; disposed := true;
                                         run_timeouts := run_timeouts iso |}]> (isolates s)))
    | None => (Thrown (Error "Isolate is already disposed"), s)
    end.

(** ** [SandboxExecutor] *)

Definition nl : string := String newline EmptyString.

(** The template literal wrapping the user's code. *)
Definition wrappedCode (code : string) : string :=
  nl +:+ "        const console = { " +:+ nl
     +:+ "          log: (...args) => log(args.map(a => String(a)).join(' '))" +:+ nl
     +:+ "        };" +:+ nl
     +:+ "        " +:+ code +:+ nl
     +:+ "      ".

(** [error.message?.includes(needle)]; a missing message is falsy. *)
Definition message_includes (needle : string) (e : JsError) : bool :=
  match message e with
  | Some m => includes needle m
  | None => false
  end.

(** [output += msg + '\n'] for every logged message. *)
Definition captured (msgs : list string) : string :=
  fold_left (fun out msg => out +:+ (msg +:+ nl)) msgs EmptyString.

Definition executeJavaScript (h : Host) (code : string) (tmo : Z) (memoryLimitMB : Z)
    (executionId : string) : M (string * Z) :=
  isolate <~ new_Isolate h memoryLimitMB ;;
  try_catch
    (ivm_call (ivm_createContext (host_ivm h) isolate) ;;;
     ivm_call (ivm_global_set (host_ivm h) isolate) ;;;
     ivm_call (ivm_compileScript (host_ivm h) isolate (wrappedCode code)) ;;;
     msgs <~ script_run h isolate (wrappedCode code) tmo ;;
     used <~ getHeapStatisticsSync h isolate ;;
     dispose isolate ;;;
     ret (trim (captured msgs), used))
    (fun error =>
     dispose isolate ;;;
     throw_if (message_includes "timeout" error)
       (Error ("Execution timeout: code ran longer than " +:+ Z_to_string tmo +:+ "ms")) ;;;
     throw_if (message_includes "memory" error)
       (Error ("Memory limit exceeded: maximum " +:+ Z_to_string memoryLimitMB +:+ "MB")) ;;;
     throw error).

(** The constant [proofData] of [generateProof], for the clock reading [now]:
    [JSON.stringify({ ...data, timestamp, network, executor })]. *)
Definition proofData (cfg : Config) (now : Z) (data : list (string * json)) : string :=
  JSON_stringify
    (JObject (obj_set "executor" (JString (base (wallets cfg)))
             (obj_set "network" (JString (name (network cfg)))
             (obj_set "timestamp" (JNumber now) data)))).

Definition generateProof (h : Host) (data : list (string * json)) : M string :=
  now <~ Date_now h ;;
  ret (sha256_hex (proofData (CONFIG (host_env h)) now data)).

Definition verifyProof (h : Host) (prf : string) (data : list (string * json)) : M bool :=
  regeneratedProof <~ generateProof h data ;;
  ret (String.eqb prf regeneratedProof).

(** [error.message] as a property value. *)
Definition message_value (e : JsError) : json :=
  match message e with
  | Some m => JString m
  | None => JUndefined
  end.

(** [error.message || 'Unknown execution error'] *)
Definition message_or_unknown (e : JsError) : string :=
  match message e with
  | Some EmptyString | None => "Unknown execution error"
  | Some m => m
  end.

(** [l.includes(x)] on an array of strings. *)
Definition array_includes (l : list string) (x : string) : bool :=
  existsb (String.eqb x) l.

Definition execute (h : Host) (request : ExecutionRequest) : M ExecutionResult :=
  executionId <~ nanoid h 16 ;;
  startTime <~ Date_now h ;;
  let tierLimits := TIER_LIMITS (req_tier request) in
  try_catch
    (throw_if (negb (array_includes (allowedLanguages (sandbox (CONFIG (host_env h))))
                                    (language_name (req_language request))))
       (Error ("Language " +:+ language_name (req_language request) +:+ " not supported")) ;;;
     throw_if (negb (String.eqb (language_name (req_language request)) "javascript"))
       (Error "Python execution coming soon. Use JavaScript for now.") ;;;
     let tmo := execute_timeout request in
     result <~ executeJavaScript h (req_code request) tmo (memory tierLimits) executionId ;;
     now <~ Date_now h ;;
     let elapsed := now - startTime in
     prf <~ generateProof h [("code", JString (req_code request));
                             ("output", JString (fst result));
                             ("executionTime", JNumber elapsed);
                             ("executionId", JString executionId)] ;;
     ret {| success := true;
            output := fst result;
            error := None;
            executionTime := elapsed;
            memoryUsed := snd result;
            proof := prf;
            executionId := executionId;
            tier := tier_name (req_tier request) |})
    (fun err =>
     now <~ Date_now h ;;
     let elapsed := now - startTime in
     prf <~ generateProof h [("code", JString (req_code request));
                             ("error", message_value err);
                             ("executionTime", JNumber elapsed);
                             ("executionId", JString executionId)] ;;
     ret {| success := false;
            output := EmptyString;
            error := Some (message_or_unknown err);
            executionTime := elapsed;
            memoryUsed := 0;
            proof := prf;
            executionId := executionId;
            tier := tier_name (req_tier request) |}).

(** ** [routes/execute.ts]: the request schema *)

Inductive ZodIssueCode : Type := invalid_type | too_small | too_big | invalid_enum_value.

(** An issue: its code, the path of the offending value, and the message the
    schema attaches to the check ([None] for the library's default text). *)
Record ZodIssue := {
  issue_code : ZodIssueCode;
  issue_path : list string;
  issue_message : option string
}.

(** A schema parses the value found at a path into data or into issues. *)
Definition ZodType (A : Type) : Type := list string -> json -> A + list ZodIssue.

Inductive StringCheck : Type :=
  | check_min (n : Z) (msg : string)
  | check_max (n : Z) (msg : string).

Definition string_check_issues (path : list string) (s : string) (c : StringCheck)
  : list ZodIssue :=
  match c with
  | check_min n msg =>
      if Z.of_nat (String.length s) <? n
      then [{| issue_code := too_small; issue_path := path; issue_message := Some msg |}]
      else []
  | check_max n msg =>
      if n <? Z.of_nat (String.length s)
      then [{| issue_code := too_big; issue_path := path; issue_message := Some msg |}]
      else []
  end.

Definition type_issue (path : list string) : list ZodIssue :=
  [{| issue_code := invalid_type; issue_path := path; issue_message := None |}].

(** [z.string()] followed by its checks; every failing check adds an issue. *)
Definition z_string (checks : list StringCheck) : ZodType string :=
  fun path v =>
    match v with
    | JString s =>
        match concat (map (string_check_issues path s) checks) with
        | [] => inl s
        | issues => inr issues
        end
    | _ => inr (type_issue path)
    end.

Fixpoint enum_lookup {A} (values : list (string * A)) (s : string) : option A :=
  match values with
  | [] => None
  | (k, a) :: r => if String.eqb s k then Some a else enum_lookup r s
  end.

(** [z.enum([...])], each literal paired with the value it denotes. *)
Definition z_enum {A} (values : list (string * A)) : ZodType A :=
  fun path v =>
    match v with
    | JString s =>
        match enum_lookup values s with
        | Some a => inl a
        | None => inr [{| issue_code := invalid_enum_value; issue_path := path;
                          issue_message := None |}]
        end
    | _ => inr (type_issue path)
    end.

Definition z_number : ZodType Z :=
  fun path v =>
    match v with
    | JNumber z => inl z
    | _ => inr (type_issue path)
    end.

Definition z_optional {A} (inner : ZodType A) : ZodType (option A) :=
  fun path v =>
    match v with
    | JUndefined => inl None
    | _ => match inner path v with
           | inl a => inl (Some a)
           | inr issues => inr issues
           end
    end.

Definition issues_of {A} (r : A + list ZodIssue) : list ZodIssue :=
  match r with
  | inl _ => []
  | inr issues => issues
  end.

(** [ExecuteRequestSchema]: a [z.object] over the four keys, parsed in the
    order of the shape; the issues of all keys are collected. *)
Definition ExecuteRequestSchema : ZodType ExecutionRequest :=
  fun path v =>
    match v with
    | JObject fields =>
        let code := z_string [check_min 1 "Code cannot be empty";
                              check_max 10000 "Code too large"]
                      (path ++ ["code"]) (obj_get "code" fields) in
        let language := z_enum [("javascript", javascript); ("python", python)]
                          (path ++ ["language"]) (obj_get "language" fields) in
        let tier := z_enum [("basic", basic); ("standard", standard); ("premium", premium)]
                      (path ++ ["tier"]) (obj_get "tier" fields) in
        let tmo := z_optional z_number (path ++ ["timeout"]) (obj_get "timeout" fields) in
        match code, language, tier, tmo with
        | inl c, inl l, inl t, inl o =>
            inl {| req_code := c; req_language := l; req_tier := t; req_timeout := o |}
        | _, _, _, _ =>
            inr (issues_of code ++ issues_of language ++ issues_of tier ++ issues_of tmo)
        end
    | _ => inr (type_issue path)
    end.

(** [schema.safeParse(data)] *)
Definition safeParse {A} (schema : ZodType A) (data : json) : A + list ZodIssue :=
  schema [] data.

(** ** HTTP requests and responses *)

Record X402Request := {
  x_payment_header : option string;
  req_path : string;
  req_body : json;
  x402Payment : option X402Payment
}.

Record PaymentRequirement := {
  maxAmountRequired : number;
  resource : string;
  payTo : string;
  asset : string;
  requirement_network : string;
  scheme : string
}.

Record PaymentInfo := {
  paid_amount : number;
  paid_payer : string;
  paid_transactionHash : string;
  paid_network : string;
  paid_token : string
}.

Inductive ResponseBody : Type :=
  | InvalidRequest (err msg : string) (details : list ZodIssue)
  | Failure (err msg : string)
  | Executed (result : ExecutionResult) (payment : PaymentInfo) (timestamp : Z)
  | PaymentRequired (err msg : string) (paymentRequirement : PaymentRequirement)
  | PaymentRejected (err msg : string).

Record Response := { status : Z; body : ResponseBody }.

(** [process.env.PAYMENT_TOKEN || 'USDC'] *)
Definition paymentToken (env : gmap string string) : string :=
  env_or env "PAYMENT_TOKEN" "USDC".

(** [req.x402Payment?.verified] *)
Definition payment_verified (req : X402Request) : bool :=
  match x402Payment req with
  | Some p => verified p
  | None => false
  end.

Definition executeHandler (h : Host) (req : X402Request) : M Response :=
  try_catch
    (match safeParse ExecuteRequestSchema (req_body req) with
     | inr issues =>
         ret {| status := 400;
                body := InvalidRequest "Invalid Request" "Request validation failed" issues |}
     | inl data =>
         match x402Payment req with
         | Some p =>
             if negb (verified p)
             then ret {| status := 500;
                         body := Failure "Internal Server Error"
                                         "Payment verification state invalid" |}
             else
               result <~ execute h data ;;
               now <~ Date_now h ;;
               ret {| status := 200;
                      body := Executed result
                                {| paid_amount := amount p;
                                   paid_payer := payer p;
                                   paid_transactionHash := transactionHash p;
                                   paid_network := name (network (CONFIG (host_env h)));
                                   paid_token := paymentToken (host_env h) |}
                                now |}
         | None =>
             ret {| status := 500;
                    body := Failure "Internal Server Error"
                                    "Payment verification state invalid" |}
         end
     end)
    (fun err =>
       ret {| status := 500;
              body := Failure "Execution Failed"
                        (match message err with
                         | Some EmptyString | None => "An error occurred during execution"
                         | Some m => m
                         end) |}).

(** ** The x402 middleware and the route [POST /api/execute] *)






(** ** Vocabulary of the properties *)

(** The three price variables are left to their built-in defaults. *)
Definition prices_not_overridden (env : gmap string string) : Prop :=
  env !! "BASIC_EXECUTION_PRICE" = None
  ∧ env !! "STANDARD_EXECUTION_PRICE" = None
  ∧ env !! "PREMIUM_EXECUTION_PRICE" = None.

Definition ceilings_monotone (t1 t2 : Tier) : Prop :=
  timeout (TIER_LIMITS t1) <= timeout (TIER_LIMITS t2)
  ∧ memory (TIER_LIMITS t1) <= memory (TIER_LIMITS t2).

(** The tier table of a process started in [env] is monotone. *)
Definition tier_table_monotone (env : gmap string string) : Prop :=
  ∀ t1 t2, tier_lt t1 t2 →
    num_leb (price (PRICING env) t1) (price (PRICING env) t2) = true
    ∧ ceilings_monotone t1 t2.

(** The isolates created between two states, and the timeouts of their runs. *)
Definition new_isolates (before after : State) : list Isolate :=
  drop (length (isolates before)) (isolates after).

Definition run_timeouts_of (l : list Isolate) : list Z :=
  concat (map run_timeouts l).

(** The first error isolated-vm raises inside the [try] block of
    [executeJavaScript] for isolate [i], if any. *)
Definition first_ivm_error (h : Host) (i : nat) (code : string) (tmo : Z) : option JsError :=
  let vm := host_ivm h in
  match ivm_createContext vm i with
  | Some e => Some e
  | None =>
  match ivm_global_set vm i with
  | Some e => Some e
  | None =>
  match ivm_compileScript vm i (wrappedCode code) with
  | Some e => Some e
  | None =>
  match failure (ivm_run vm i (wrappedCode code) tmo) with
  | Some e => Some e
  | None =>
  match ivm_used_heap_size vm i with
  | Thrown e => Some e
  | Returned _ => None
  end end end end end.

(** [script.run] is reached: context creation, injection of [log] and
    compilation all succeed. *)
Definition run_reached (h : Host) (i : nat) (code : string) : bool :=
  let vm := host_ivm h in
  match ivm_createContext vm i, ivm_global_set vm i,
        ivm_compileScript vm i (wrappedCode code) with
  | None, None, None => true
  | _, _, _ => false
  end.

Definition timeout_message (tmo : Z) : string :=
  "Execution timeout: code ran longer than " +:+ Z_to_string tmo +:+ "ms".

Definition memory_message (memoryLimitMB : Z) : string :=
  "Memory limit exceeded: maximum " +:+ Z_to_string memoryLimitMB +:+ "MB".

(** What leaves the [catch] block of [executeJavaScript] for a caught [e]. *)
Definition rethrown (tmo memoryLimitMB : Z) (e : JsError) : JsError :=
  if message_includes "timeout" e then Error (timeout_message tmo)
  else if message_includes "memory" e then Error (memory_message memoryLimitMB)
  else e.

(** The isolate of a finished call: created with [limit], disposed, with the
    runs [rts]. *)
Definition finished_isolate (limit : Z) (rts : list Z) : Isolate :=
  {| memoryLimit := limit; disposed := true; run_timeouts := rts |}.

(** The request passes the two language checks of [execute]. *)
Definition language_accepted (h : Host) (request : ExecutionRequest) : bool :=
  array_includes (allowedLanguages (sandbox (CONFIG (host_env h))))
                 (language_name (req_language request))
  && String.eqb (language_name (req_language request)) "javascript".

(** The error [execute] throws for a request that fails a language check. *)
Definition language_error (h : Host) (request : ExecutionRequest) : JsError :=
  if array_includes (allowedLanguages (sandbox (CONFIG (host_env h))))
                    (language_name (req_language request))
  then Error "Python execution coming soon. Use JavaScript for now."
  else Error ("Language " +:+ language_name (req_language request) +:+ " not supported").

(** [r] is the result built by the [catch] block of [execute] for [e]. *)
Definition failed_with (r : ExecutionResult) (e : JsError) : Prop :=
  success r = false ∧ output r = EmptyString ∧ memoryUsed r = 0
  ∧ error r = Some (message_or_unknown e).

(** The ways a call [execute h request] started in [s] can end in [r], [s']:
    the run completes; the language is refused; the isolate cannot be
    created; isolated-vm raises [e] inside the [try] block. *)
Inductive execute_case (h : Host) (request : ExecutionRequest) (s : State)
    (r : ExecutionResult) (s' : State) : Prop :=
  | case_completed (used : Z) :
      language_accepted h request = true →
      ivm_construct (host_ivm h) (length (isolates s))
                    (memory (TIER_LIMITS (req_tier request))) = None →
      first_ivm_error h (length (isolates s)) (req_code request)
                      (execute_timeout request) = None →
      ivm_used_heap_size (host_ivm h) (length (isolates s)) = Returned used →
      success r = true → error r = None → memoryUsed r = used →
      output r = trim (captured (logged (ivm_run (host_ivm h) (length (isolates s))
                                           (wrappedCode (req_code request))
                                           (execute_timeout request)))) →
      isolates s' = isolates s ++ [finished_isolate (memory (TIER_LIMITS (req_tier request)))
                                                    [execute_timeout request]] →
      execute_case h request s r s'
  | case_refused :
      language_accepted h request = false →
      failed_with r (language_error h request) →
      isolates s' = isolates s →
      execute_case h request s r s'
  | case_no_isolate (e : JsError) :
      language_accepted h request = true →
      ivm_construct (host_ivm h) (length (isolates s))
                    (memory (TIER_LIMITS (req_tier request))) = Some e →
      failed_with r e →
      isolates s' = isolates s →
      execute_case h request s r s'
  | case_failed (e : JsError) :
      language_accepted h request = true →
      ivm_construct (host_ivm h) (length (isolates s))
                    (memory (TIER_LIMITS (req_tier request))) = None →
      first_ivm_error h (length (isolates s)) (req_code request)
                      (execute_timeout request) = Some e →
      failed_with r (rethrown (execute_timeout request)
                              (memory (TIER_LIMITS (req_tier request))) e) →
      isolates s' = isolates s ++ [finished_isolate (memory (TIER_LIMITS (req_tier request)))
                                     (if run_reached h (length (isolates s)) (req_code request)
                                      then [execute_timeout request] else [])] →
      execute_case h request s r s'.

(** A field of a request body violates the schema. *)
Definition field_violated (field : string) (fields : list (string * json)) : bool :=
  if String.eqb field "code" then
    match obj_get "code" fields with
    | JString s => (String.length s =? 0)%nat || (10000 <? Z.of_nat (String.length s))
    | _ => true
    end
  else if String.eqb field "language" then
    match obj_get "language" fields with
    | JString s => negb (String.eqb s "javascript" || String.eqb s "python")
    | _ => true
    end
  else if String.eqb field "tier" then
    match obj_get "tier" fields with
    | JString s => negb (String.eqb s "basic" || String.eqb s "standard"
                         || String.eqb s "premium")
    | _ => true
    end
  else if String.eqb field "timeout" then
    match obj_get "timeout" fields with
    | JUndefined | JNumber _ => false
    | _ => true
    end
  else false.

(** The issues of the four keys of [ExecuteRequestSchema], in the order of
    the shape. *)
Definition collected_issues (path : list string) (fields : list (string * json))
  : list ZodIssue :=
  issues_of (z_string [check_min 1 "Code cannot be empty"; check_max 10000 "Code too large"]
               (path ++ ["code"]) (obj_get "code" fields))
  ++ issues_of (z_enum [("javascript", javascript); ("python", python)]
                  (path ++ ["language"]) (obj_get "language" fields))
  ++ issues_of (z_enum [("basic", basic); ("standard", standard); ("premium", premium)]
                  (path ++ ["tier"]) (obj_get "tier" fields))
  ++ issues_of (z_optional z_number (path ++ ["timeout"]) (obj_get "timeout" fields)).


(** The memory reported by [execute] is the heap statistic of the isolate of
    the call whenever that statistic can be read. *)
Definition memory_read_from_heap (h : Host) (request : ExecutionRequest) (s : State) : Prop :=
  ∀ r s' used,
    execute h request s = (Returned r, s') →
    ivm_used_heap_size (host_ivm h) (length (isolates s)) = Returned used →
    memoryUsed r = used.


(** ** Sample hosts and requests *)

Definition quiet_ivm : IsolatedVm :=
  {| ivm_construct := fun _ _ => None;
     ivm_createContext := fun _ => None;
     ivm_global_set := fun _ => None;
     ivm_compileScript := fun _ _ => None;
     ivm_run := fun _ _ _ => {| logged := ["4"]; failure := None |};
     ivm_used_heap_size := fun _ => Returned 2048576 |}.

(** A host whose clock advances by one millisecond per reading. *)
Definition sample_host (env : gmap string string) (vm : IsolatedVm) : Host :=
  {| host_env := env;
     host_clock := fun n => 1700000000000 + Z.of_nat n;
     host_random := fun n => 37 * Z.of_nat n;
     host_ivm := vm;
     host_settle := fun _ _ _ => inr "no facilitator" |}.

(** A host whose clock stands still. *)
Definition frozen_host : Host :=
  {| host_env := ∅;
     host_clock := fun _ => 1700000000000;
     host_random := fun n => 37 * Z.of_nat n;
     host_ivm := quiet_ivm;
     host_settle := fun _ _ _ => inr "no facilitator" |}.

Definition initial_state : State := {| ticks := 0; drawn := 0; isolates := [] |}.

Definition sample_request (t : Tier) (tmo : option Z) : ExecutionRequest :=
  {| req_code := "console.log(2+2)"; req_language := javascript;
     req_tier := t; req_timeout := tmo |}.

(** isolated-vm aborting the run with the error text [msg], with heap
    statistics still on offer. *)
Definition aborting_ivm (msg : string) : IsolatedVm :=
  {| ivm_construct := fun _ _ => None;
     ivm_createContext := fun _ => None;
     ivm_global_set := fun _ => None;
     ivm_compileScript := fun _ _ => None;
     ivm_run := fun _ _ _ => {| logged := []; failure := Some (Error msg) |};
     ivm_used_heap_size := fun _ => Returned 5000000 |}.

Definition timing_out_ivm : IsolatedVm := aborting_ivm "Script execution timed out.".


Definition unpaid_basic_request : X402Request :=
  {| x_payment_header := None;
     req_path := "/api/execute";
     req_body := JObject [("code", JString "2+2");
                          ("language", JString "javascript");
                          ("tier", JString "basic")];
     x402Payment := None |}.

Definition malformed_request : X402Request :=
  {| x_payment_header := None;
     req_path := "/api/execute";
     req_body := JObject [("code", JString EmptyString);
                          ("language", JString "ruby");
                          ("tier", JString "gold");
                          ("timeout", JString "soon")];
     x402Payment := None |}.

(** ** Vocabulary of the further properties *)

(** The data a caller can rebuild from a request and its successful result,
    in the order [execute] hands them to [generateProof]. *)
Definition success_data (request : ExecutionRequest) (r : ExecutionResult)
  : list (string * json) :=
  [("code", JString (req_code request));
   ("output", JString (output r));
   ("executionTime", JNumber (executionTime r));
   ("executionId", JString (executionId r))].

(** No white space at the head of [s]. *)
Definition clean_head (s : string) : Prop :=
  match s with
  | EmptyString => True
  | String c _ => is_js_space c = false
  end.

(** No white space at the end of [s]. *)
Fixpoint clean_tail (s : string) : Prop :=
  match s with
  | EmptyString => True
  | String c EmptyString => is_js_space c = false
  | String _ r => clean_tail r
  end.

(** The character [c] occurs in [s]. *)
Fixpoint has_char (c : ascii) (s : string) : bool :=
  match s with
  | EmptyString => false
  | String d r => Ascii.eqb d c || has_char c r
  end.

(** ** The rest of [config.ts]

    [Config] above carries the sections the executor reads; the other sections
    of [CONFIG] are given here as functions of the environment. *)

(** The value of a digit character in [radix], if it is one. *)
Definition digit_in (radix : Z) (c : ascii) : option Z :=
  let n := code_of c in
  let v := if (48 <=? n) && (n <=? 57) then n - 48
           else if (97 <=? n) && (n <=? 122) then n - 87
           else if (65 <=? n) && (n <=? 90) then n - 55
           else radix in
  if v <? radix then Some v else None.

Fixpoint take_radix_digits (radix : Z) (s : string) : list Z :=
  match s with
  | EmptyString => []
  | String c r =>
      match digit_in radix c with
      | Some d => d :: take_radix_digits radix r
      | None => []
      end
  end.

(** [parseInt(s)] without a radix: leading white space, an optional sign, an
    optional [0x] prefix selecting radix 16, then the longest run of digits;
    [NaN] when there is none. *)
Definition parseInt (s : string) : number :=
  let '(neg, s1) := strip_sign (skip_space s) in
  let '(radix, s2) :=
    match s1 with
    | String "0" (String "x" r) | String "0" (String "X" r) => (16, r)
    | _ => (10, s1)
    end in
  match take_radix_digits radix s2 with
  | [] => NaN
  | ds =>
      let m := fold_left (fun acc d => radix * acc + d) ds 0 in
      Num (inject_Z (if neg then - m else m))
  end.

(** [n * k] for a positive integer constant [k]. *)
Definition times_constant (n : number) (k : Z) : number :=
  match n with
  | Num q => Num (q * inject_Z k)
  | other => other
  end.

(** [BASE_NETWORK.chainId] *)
Definition chainId (env : gmap string string) : number :=
  parseInt (env_or env "BASE_CHAIN_ID" "8453").

(** [X402_CONFIG.facilitatorName] *)
Definition facilitatorName (env : gmap string string) : string :=
  env_or env "FACILITATOR_NAME" "Daydreams".

(** [SANDBOX_LIMITS.maxExecutionTime] and [SANDBOX_LIMITS.maxMemory] *)
Definition maxExecutionTime (env : gmap string string) : number :=
  parseInt (env_or env "MAX_EXECUTION_TIME_MS" "30000").

Definition maxMemory (env : gmap string string) : number :=
  times_constant (times_constant (parseInt (env_or env "MAX_MEMORY_MB" "128")) 1024) 1024.

Record AgentMetadata := {
  agent_name : string;
  agent_description : string;
  agent_version : string
}.

Definition AGENT_METADATA (env : gmap string string) : AgentMetadata :=
  {| agent_name := env_or env "AGENT_NAME" "Lucid Sandbox Executor";
     agent_description :=
       env_or env "AGENT_DESCRIPTION" "Secure code execution with x402 micropayments";
     agent_version := "1.0.0" |}.

(** ** [routes/status.ts] *)

Record StatusNetwork := {
  sn_name : string;
  sn_chainId : number;
  sn_token : string;
  sn_tokenAddress : string
}.

Record StatusPayment := {
  sp_facilitator : string;
  sp_walletAddress : string;
  sp_networks : WalletAddresses
}.

Record StatusCapabilities := {
  sc_languages : list string;
  sc_maxExecutionTime : number;
  sc_maxMemory : number
}.

Record TierOffer := {
  offer_price : number;
  offer_timeout : Z;
  offer_memory : Z;
  offer_description : string
}.

Record StatusPricing := {
  offer_basic : TierOffer;
  offer_standard : TierOffer;
  offer_premium : TierOffer
}.

(** The [cost] of an endpoint: the number 0 or the string 'variable'. *)
Inductive EndpointCost : Type := cost_zero | cost_variable.

Record EndpointInfo := {
  ep_path : string;
  ep_method : string;
  ep_cost : EndpointCost;
  ep_description : string
}.

Record StatusEndpoints := {
  ep_status : EndpointInfo;
  ep_execute : EndpointInfo;
  ep_verify : EndpointInfo
}.

Record StatusPayload := {
  st_name : string;
  st_version : string;
  st_description : string;
  st_status : string;
  st_network : StatusNetwork;
  st_payment : StatusPayment;
  st_capabilities : StatusCapabilities;
  st_pricing : StatusPricing;
  st_endpoints : StatusEndpoints;
  st_timestamp : Z;
  st_uptime : number
}.

(** A response of a free endpoint: its status code, the Cache-Control header
    when one is set, and the payload or the pair of error texts. *)
Record InfoResponse (A : Type) := {
  info_status : Z;
  info_cache_control : option string;
  info_body : A + string * string
}.
Arguments info_status {A} _.
Arguments info_cache_control {A} _.
Arguments info_body {A} _.

(** [statusHandler]; [uptime] is the answer of [process.uptime()]. *)
Definition statusHandler (h : Host) (uptime : number) : M (InfoResponse StatusPayload) :=
  try_catch
    (let env := host_env h in
     let cfg := CONFIG env in
     now <~ Date_now h ;;
     ret {| info_status := 200;
            info_cache_control := Some "public, max-age=60";
            info_body := inl
              {| st_name := agent_name (AGENT_METADATA env);
                 st_version := agent_version (AGENT_METADATA env);
                 st_description := agent_description (AGENT_METADATA env);
                 st_status := "online";
                 st_network :=
                   {| sn_name := name (network cfg);
                      sn_chainId := chainId env;
                      sn_token := paymentToken env;
                      sn_tokenAddress := usdcAddress (network cfg) |};
                 st_payment :=
                   {| sp_facilitator := facilitatorName env;
                      sp_walletAddress := base (wallets cfg);
                      sp_networks :=
                        {| base := base (wallets cfg);
                           ethereum := ethereum (wallets cfg);
                           solana := solana (wallets cfg) |} |};
                 st_capabilities :=
                   {| sc_languages := allowedLanguages (sandbox cfg);
                      sc_maxExecutionTime := maxExecutionTime env;
                      sc_maxMemory := maxMemory env |};
                 st_pricing :=
                   {| offer_basic :=
                        {| offer_price := price_basic (pricing cfg);
                           offer_timeout := 10000;
                           offer_memory := 64;
                           offer_description := "Basic execution with 10s timeout" |};
                      offer_standard :=
                        {| offer_price := price_standard (pricing cfg);
                           offer_timeout := 30000;
                           offer_memory := 128;
                           offer_description := "Standard execution with 30s timeout" |};
                      offer_premium :=
                        {| offer_price := price_premium (pricing cfg);
                           offer_timeout := 60000;
                           offer_memory := 256;
                           offer_description :=
                             "Premium execution with 60s timeout and proofs" |} |};
                 st_endpoints :=
                   {| ep_status :=
                        {| ep_path := "/api/status"; ep_method := "GET";
                           ep_cost := cost_zero;
                           ep_description := "Get agent status and capabilities" |};
                      ep_execute :=
                        {| ep_path := "/api/execute"; ep_method := "POST";
                           ep_cost := cost_variable;
                           ep_description := "Execute code with x402 payment" |};
                      ep_verify :=
                        {| ep_path := "/api/verify"; ep_method := "GET";
                           ep_cost := cost_zero;
                           ep_description := "Verify agent wallet addresses" |} |};
                 st_timestamp := now;
                 st_uptime := uptime |} |})
    (fun _ =>
       ret {| info_status := 500;
              info_cache_control := None;
              info_body := inr ("Internal Server Error", "Failed to retrieve status") |}).

(** [status.pricing[t]] *)
Definition offer (p : StatusPricing) (t : Tier) : TierOffer :=
  match t with
  | basic => offer_basic p
  | standard => offer_standard p
  | premium => offer_premium p
  end.

(** ** [routes/verify.ts] *)

Definition hex_byte (b : Z) (tl : string) : string :=
  String (hex_digit (Z.shiftr b 4)) (String (hex_digit (Z.land b 15)) tl).

(** [Buffer.from(bytes).toString('hex')] *)
Fixpoint hex_of_bytes (bs : list Z) : string :=
  match bs with
  | [] => EmptyString
  | b :: r => hex_byte b (hex_of_bytes r)
  end.

(** ['0x' + Buffer.from(text).toString('hex').slice(0, 64)] *)
Definition attestation_hash (text : string) : string :=
  "0x" +:+ String.substring 0 64 (hex_of_bytes (utf8 text)).

Record WalletInfo := {
  wi_address : string;
  wi_network : string;
  (** absent for the Solana entry *)
  wi_chainId : option number;
  wi_primary : bool;
  wi_description : string
}.

Record Attestation := { att_type : string; att_hash : string }.

Record VerifyPayload := {
  vf_agent_name : string;
  vf_agent_version : string;
  vf_wallet_base : WalletInfo;
  vf_wallet_ethereum : WalletInfo;
  vf_wallet_solana : WalletInfo;
  vf_payment_token : string;
  vf_payment_tokenAddress : string;
  vf_payment_facilitator : string;
  vf_payment_network : string;
  vf_trust_verifiedAt : Z;
  vf_trust_trustScore : Z;
  vf_trust_attestations : list Attestation;
  vf_guarantee_sandboxIsolation : bool;
  vf_guarantee_noDataRetention : bool;
  vf_guarantee_deterministicExecution : bool;
  vf_guarantee_cryptographicProofs : bool;
  vf_compliance_x402Protocol : bool;
  vf_compliance_eip3009 : bool;
  vf_compliance_erc8004 : string;
  vf_timestamp : Z
}.

Definition verifyHandler (h : Host) : M (InfoResponse VerifyPayload) :=
  try_catch
    (let env := host_env h in
     let cfg := CONFIG env in
     verifiedAt <~ Date_now h ;;
     now <~ Date_now h ;;
     ret {| info_status := 200;
            info_cache_control := Some "public, max-age=300";
            info_body := inl
              {| vf_agent_name := agent_name (AGENT_METADATA env);
                 vf_agent_version := agent_version (AGENT_METADATA env);
                 vf_wallet_base :=
                   {| wi_address := base (wallets cfg);
                      wi_network := "Base L2";
                      wi_chainId := Some (chainId env);
                      wi_primary := true;
                      wi_description := "Primary payment address for USDC on Base" |};
                 vf_wallet_ethereum :=
                   {| wi_address := ethereum (wallets cfg);
                      wi_network := "Ethereum Mainnet";
                      wi_chainId := Some (Num 1);
                      wi_primary := false;
                      wi_description := "Ethereum mainnet address" |};
                 vf_wallet_solana :=
                   {| wi_address := solana (wallets cfg);
                      wi_network := "Solana Mainnet";
                      wi_chainId := None;
                      wi_primary := false;
                      wi_description := "Solana address for future multi-chain support" |};
                 vf_payment_token := paymentToken env;
                 vf_payment_tokenAddress := usdcAddress (network cfg);
                 vf_payment_facilitator := facilitatorName env;
                 vf_payment_network := name (network cfg);
                 vf_trust_verifiedAt := verifiedAt;
                 vf_trust_trustScore := 95;
                 vf_trust_attestations :=
                   [{| att_type := "identity";
                       att_hash := attestation_hash (base (wallets cfg)) |};
                    {| att_type := "capability";
                       att_hash := attestation_hash "sandbox-executor" |}];
                 vf_guarantee_sandboxIsolation := true;
                 vf_guarantee_noDataRetention := true;
                 vf_guarantee_deterministicExecution := true;
                 vf_guarantee_cryptographicProofs := true;
                 vf_compliance_x402Protocol := true;
                 vf_compliance_eip3009 := true;
                 vf_compliance_erc8004 := "pending";
                 vf_timestamp := now |} |})
    (fun _ =>
       ret {| info_status := 500;
              info_cache_control := None;
              info_body := inr ("Internal Server Error",
                                "Failed to retrieve verification data") |}).

(* ===================================================================== *)
(** * Part II: properties *)
(* ===================================================================== *)

(** ** Sanity checks of the primitives *)

Example sha256_abc :
  sha256_hex "abc" = "ba7816bf8f01cfea414140de5dae2223b00361a396177a9cb410ff61f20015ad".
Proof. vm_compute. reflexivity. Qed.

Example sha256_empty :
  sha256_hex EmptyString
  = "e3b0c44298fc1c149afbf4c8996fb92427ae41e4649b934ca495991b7852b855".
Proof. vm_compute. reflexivity. Qed.

Example round_constants_ends :
  nth 0 round_constants 0 = 0x428a2f98 ∧ nth 63 round_constants 0 = 0xc67178f2.
Proof. split; reflexivity. Qed.

Example parseFloat_default_prices :
  parseFloat "0.01" = Num (1 # 100) ∧ parseFloat "0.02" = Num (2 # 100)
  ∧ parseFloat "0.05" = Num (5 # 100) ∧ parseFloat "free" = NaN.
Proof. repeat split; reflexivity. Qed.

Example split_default_languages :
  split_on "," "javascript,python" = ["javascript"; "python"].
Proof. reflexivity. Qed.

Example stringify_sample :
  JSON_stringify (JObject [("error", JUndefined); ("executionTime", JNumber 45);
                           ("tier", JString "basic")])
  = "{" +:+ json_quote "executionTime" +:+ ":45," +:+ json_quote "tier" +:+ ":"
        +:+ json_quote "basic" +:+ "}".
Proof. reflexivity. Qed.

(** ** The tier table *)

Lemma env_or_unset (env : gmap string string) (k d : string) :
  env !! k = None → env_or env k d = d.
Proof. intros H. unfold env_or. by rewrite H. Qed.

Lemma PRICING_default (env : gmap string string) :
  prices_not_overridden env → PRICING env = PRICING ∅.
Proof.
  intros (Hb & Hs & Hp). unfold PRICING.
  rewrite !env_or_unset by (done || apply lookup_empty). done.
Qed.

Lemma ceilings_are_monotone (t1 t2 : Tier) : tier_lt t1 t2 → ceilings_monotone t1 t2.
Proof.
  unfold tier_lt, ceilings_monotone.
  destruct t1, t2; simpl; intros Hlt; try lia.
Qed.

(** C3, the claim as stated fails: started with BASIC_EXECUTION_PRICE=0.10 the
    process prices basic at 0.10 and standard at 0.02, so the tier table is
    not monotone in price. *)
Lemma overridden_price_breaks_order :
  ¬ tier_table_monotone {[ "BASIC_EXECUTION_PRICE" := "0.10" ]}.
Proof.
  intros Hmono.
  destruct (Hmono basic standard) as [Hle _].
  - unfold tier_lt. simpl. lia.
  - vm_compute in Hle. discriminate.
Qed.

(** C3, amended: for every pair of tiers t1 < t2 in the order
    basic < standard < premium, the timeout and memory ceilings of
    [TIER_LIMITS] are monotone whatever the environment, and the prices are
    monotone whenever the environment leaves the three price variables to
    their defaults. *)
Theorem tier_table_monotone_by_default (env : gmap string string) (t1 t2 : Tier) :
  tier_lt t1 t2 →
  ceilings_monotone t1 t2
  ∧ (prices_not_overridden env →
     num_leb (price (PRICING env) t1) (price (PRICING env) t2) = true).
Proof.
  intros Hlt. split; [by apply ceilings_are_monotone|].
  intros Hdef. rewrite (PRICING_default env Hdef).
  unfold tier_lt in Hlt. destruct t1, t2; simpl in Hlt; try lia; reflexivity.
Qed.

Lemma tier_table_monotone_by_default_witness :
  tier_lt basic premium
  ∧ prices_not_overridden ∅
  ∧ num_leb (price (PRICING ∅) basic) (price (PRICING ∅) premium) = true.
Proof.
  assert (Hlt : tier_lt basic premium) by (unfold tier_lt; simpl; lia).
  assert (Hdef : prices_not_overridden ∅) by (repeat split; apply lookup_empty).
  split; [exact Hlt|]. split; [exact Hdef|].
  exact (proj2 (tier_table_monotone_by_default ∅ basic premium Hlt) Hdef).
Defined.

(** ** The effective timeout *)

Lemma or_else_nonzero (t d : Z) : t ≠ 0 → or_else (Some t) d = t.
Proof. intros Hnz. destruct t; simpl; congruence. Qed.


Lemma execute_timeout_falsy (request : ExecutionRequest) :
  req_timeout request = None ∨ req_timeout request = Some 0 →
  execute_timeout request = timeout (TIER_LIMITS (req_tier request)).
Proof.
  unfold execute_timeout, Math_min. intros [-> | ->]; simpl; lia.
Qed.

Lemma execute_timeout_truthy (request : ExecutionRequest) (t : Z) :
  req_timeout request = Some t → t ≠ 0 →
  execute_timeout request = Z.min t (timeout (TIER_LIMITS (req_tier request))).
Proof.
  unfold execute_timeout, Math_min. intros -> Hnz. by rewrite or_else_nonzero.
Qed.

(** ** The isolation engine *)

Lemma lookup_last_added {A} (l : list A) (x : A) : (l ++ [x]) !! length l = Some x.
Proof. by rewrite list_lookup_middle. Qed.

Lemma insert_last_added {A} (l : list A) (x y : A) : <[length l := y]> (l ++ [x]) = l ++ [y].
Proof. rewrite insert_app_r_alt by lia. by rewrite Nat.sub_diag. Qed.

Lemma alter_last_added {A} (f : A → A) (l : list A) (x : A) :
  alter f (length l) (l ++ [x]) = l ++ [f x].
Proof. rewrite alter_app_r_alt by lia. by rewrite Nat.sub_diag. Qed.
Ltac caught e :=
  rewrite ?lookup_last_added; simpl; rewrite ?insert_last_added;
  destruct (message_includes "timeout" e); [done|];
  destruct (message_includes "memory" e); done.

Lemma executeJavaScript_outcome (h : Host) (code : string) (tmo mem : Z) (id : string) (s : State) :
  executeJavaScript h code tmo mem id s =
  let i := length (isolates s) in
  match ivm_construct (host_ivm h) i mem with
  | Some e => (Thrown e, s)
  | None =>
      let s' := with_isolates s
                  (isolates s ++ [finished_isolate mem (if run_reached h i code then [tmo] else [])]) in
      match first_ivm_error h i code tmo, ivm_used_heap_size (host_ivm h) i with
      | Some e, _ => (Thrown (rethrown tmo mem e), s')
      | None, Returned used =>
          (Returned (trim (captured (logged (ivm_run (host_ivm h) i (wrappedCode code) tmo))), used), s')
      | None, Thrown e => (Thrown (rethrown tmo mem e), s')
      end
  end.
Proof.
  unfold executeJavaScript, bind, try_catch, new_Isolate, first_ivm_error, run_reached.
  cbv zeta.
  destruct (ivm_construct (host_ivm h) (length (isolates s)) mem) as [e|]; [done|].
  unfold ivm_call, script_run, getHeapStatisticsSync, dispose, throw_if, rethrown, throw, ret,
    with_isolates, finished_isolate, timeout_message, memory_message; simpl.
  destruct (ivm_createContext (host_ivm h) (length (isolates s))) as [e|]; simpl;
    [caught e|].
  destruct (ivm_global_set (host_ivm h) (length (isolates s))) as [e|]; simpl;
    [caught e|].
  destruct (ivm_compileScript (host_ivm h) (length (isolates s)) (wrappedCode code))
    as [e|]; simpl; [caught e|].
  rewrite alter_last_added; simpl.
  destruct (failure (ivm_run (host_ivm h) (length (isolates s)) (wrappedCode code) tmo))
    as [e|]; simpl; [caught e|].
  destruct (ivm_used_heap_size (host_ivm h) (length (isolates s))) as [used|e]; simpl;
    [|caught e].
  rewrite lookup_last_added; simpl. by rewrite insert_last_added.
Qed.

Lemma first_ivm_error_None_heap h i code tmo :
  first_ivm_error h i code tmo = None → ∃ used, ivm_used_heap_size (host_ivm h) i = Returned used.
Proof.
  unfold first_ivm_error. repeat case_match; try discriminate. eauto.
Qed.

Lemma first_ivm_error_None_reached h i code tmo :
  first_ivm_error h i code tmo = None → run_reached h i code = true.
Proof.
  unfold first_ivm_error, run_reached. repeat case_match; done.
Qed.

Lemma generateProof_run h data s :
  generateProof h data s
  = (Returned (sha256_hex (proofData (CONFIG (host_env h)) (host_clock h (ticks s)) data)),
     {| ticks := S (ticks s); drawn := drawn s; isolates := isolates s |}).
Proof. reflexivity. Qed.

Arguments sha256_hex : simpl never.
Arguments proofData : simpl never.
Ltac result_facts :=
  do 2 eexists; split; [reflexivity|];
  split; [reflexivity|]; split; [reflexivity|]; split; [by do 2 eexists|].

Lemma execute_inversion (h : Host) (request : ExecutionRequest) (s : State) :
  ∃ r s', execute h request s = (Returned r, s')
    ∧ tier r = tier_name (req_tier request)
    ∧ executionId r = nanoid_from h 16 (drawn s)
    ∧ (∃ now data, proof r = sha256_hex (proofData (CONFIG (host_env h)) now data))
    ∧ execute_case h request s r s'.
Proof.
  unfold execute, bind, try_catch, nanoid, Date_now. cbv zeta. cbn [fst snd].
  destruct (language_accepted h request) eqn:Hlang.
  - pose proof Hlang as Hacc.
    unfold language_accepted in Hlang. apply andb_prop in Hlang as [Hinc Hjs].
    rewrite Hinc, Hjs. unfold throw_if, ret. cbn [negb].
    rewrite executeJavaScript_outcome. cbv zeta. cbn [isolates].
    destruct (ivm_construct (host_ivm h) (length (isolates s))
                (memory (TIER_LIMITS (req_tier request)))) as [e|] eqn:Hnew.
    + result_facts.
      eapply case_no_isolate; [exact Hacc|exact Hnew| |reflexivity].
      by repeat split.
    + destruct (first_ivm_error h (length (isolates s)) (req_code request)
                  (execute_timeout request)) as [e|] eqn:Hfirst.
      * result_facts.
        eapply case_failed; [exact Hacc|exact Hnew|exact Hfirst| |reflexivity].
        by repeat split.
      * destruct (first_ivm_error_None_heap _ _ _ _ Hfirst) as [used Hused].
        rewrite Hused.
        result_facts.
        eapply (case_completed _ _ _ _ _ used);
          [exact Hacc|exact Hnew|exact Hfirst|exact Hused
          |reflexivity|reflexivity|reflexivity|reflexivity|].
        cbn [isolates with_isolates].
        by rewrite (first_ivm_error_None_reached _ _ _ _ Hfirst).
  - pose proof Hlang as Hacc.
    unfold language_accepted in Hlang. unfold throw_if, throw, ret.
    destruct (array_includes (allowedLanguages (sandbox (CONFIG (host_env h))))
                (language_name (req_language request))) eqn:Hinc; cbn [negb andb] in *.
    + rewrite Hlang. cbn [negb].
      result_facts.
      eapply case_refused; [exact Hacc| |reflexivity].
      unfold language_error. rewrite Hinc. by repeat split.
    + result_facts.
      eapply case_refused; [exact Hacc| |reflexivity].
      unfold language_error. rewrite Hinc. by repeat split.
Qed.

Lemma new_isolates_app (s s' : State) (l : list Isolate) :
  isolates s' = isolates s ++ l → new_isolates s s' = l.
Proof. intros Hiso. unfold new_isolates. rewrite Hiso. by rewrite drop_app_length. Qed.

(** What [execute] leaves behind: at most one isolate, disposed, created with
    the tier's memory ceiling, and run at most once, with the effective
    timeout. *)
Lemma execute_isolates (h : Host) (request : ExecutionRequest) (s : State) :
  ∃ l, isolates (execute h request s).2 = isolates s ++ l
    ∧ (l = [] ∨ ∃ rts, l = [finished_isolate (memory (TIER_LIMITS (req_tier request))) rts]
                      ∧ (rts = [] ∨ rts = [execute_timeout request])).
Proof.
  destruct (execute_inversion h request s) as (r & s' & -> & _ & _ & _ & Hcase).
  cbn [snd]. destruct Hcase as [used _ _ _ _ _ _ _ _ Hiso | _ _ Hiso | e _ _ _ Hiso
                               | e _ _ _ _ Hiso].
  - eexists. split; [exact Hiso|]. right. eauto.
  - exists []. rewrite app_nil_r. auto.
  - exists []. rewrite app_nil_r. auto.
  - eexists. split; [exact Hiso|]. right. eexists. split; [reflexivity|].
    destruct (run_reached _ _ _); auto.
Qed.

Lemma execute_runs (h : Host) (request : ExecutionRequest) (s : State) (tmo : Z) :
  tmo ∈ run_timeouts_of (new_isolates s (execute h request s).2) →
  tmo = execute_timeout request.
Proof.
  destruct (execute_isolates h request s) as (l & Hiso & Hl).
  rewrite (new_isolates_app _ _ _ Hiso).
  destruct Hl as [-> | (rts & -> & [-> | ->])]; cbn.
  - by intros ?%elem_of_nil.
  - by intros ?%elem_of_nil.
  - by intros ->%list_elem_of_singleton.
Qed.

(** C5: every call of [executeJavaScript], whatever isolated-vm answers at
    each step (success, or an error at context creation, injection,
    compilation, run or heap statistics), leaves the isolates that existed
    before untouched and the isolate it created disposed; the same holds of
    every call of [execute].  When the constructor itself throws there is no
    isolate to dispose. *)
Theorem isolate_disposed_on_every_path (h : Host) (code : string) (tmo mem : Z)
    (id : string) (request : ExecutionRequest) (s : State) :
  (∃ l, isolates (executeJavaScript h code tmo mem id s).2 = isolates s ++ l
      ∧ Forall (λ iso, disposed iso = true) l
      ∧ length l = match ivm_construct (host_ivm h) (length (isolates s)) mem with
                   | Some _ => 0%nat
                   | None => 1%nat
                   end)
  ∧ (∃ l, isolates (execute h request s).2 = isolates s ++ l
        ∧ Forall (λ iso, disposed iso = true) l).
Proof.
  split.
  - rewrite executeJavaScript_outcome. cbv zeta.
    destruct (ivm_construct (host_ivm h) (length (isolates s)) mem) as [e|].
    + exists []. cbn. rewrite app_nil_r. auto.
    + eexists [_].
      destruct (first_ivm_error h (length (isolates s)) code tmo);
        [|destruct (ivm_used_heap_size (host_ivm h) (length (isolates s)))];
        cbn; (split; [reflexivity|]); (split; [|reflexivity]);
        by repeat constructor.
  - destruct (execute_isolates h request s) as (l & Hiso & Hl).
    exists l. split; [exact Hiso|].
    destruct Hl as [-> | (rts & -> & _)]; by repeat constructor.
Qed.




(** C10: a caller-supplied timeout of 0, like an absent one, leaves the full
    ceiling of the tier as the effective timeout, and every run that
    [execute] starts for such a request is given the ceiling. *)
Theorem zero_timeout_runs_with_ceiling (h : Host) (request : ExecutionRequest) (s : State) :
  req_timeout request = None ∨ req_timeout request = Some 0 →
  execute_timeout request = timeout (TIER_LIMITS (req_tier request))
  ∧ ∀ tmo, tmo ∈ run_timeouts_of (new_isolates s (execute h request s).2) →
           tmo = timeout (TIER_LIMITS (req_tier request)).
Proof.
  intros Hfalsy.
  pose proof (execute_timeout_falsy request Hfalsy) as Hceil.
  split; [exact Hceil|].
  intros tmo Hin. rewrite <- Hceil. by eapply execute_runs.
Qed.

Lemma zero_timeout_runs_with_ceiling_witness :
  execute_timeout (sample_request standard (Some 0)) = 30000
  ∧ 30000 ∈ run_timeouts_of
      (new_isolates initial_state
         (execute (sample_host ∅ quiet_ivm) (sample_request standard (Some 0))
                  initial_state).2).
Proof.
  destruct (zero_timeout_runs_with_ceiling (sample_host ∅ quiet_ivm)
              (sample_request standard (Some 0)) initial_state (or_intror eq_refl))
    as (Hceil & _).
  split; [exact Hceil|].
  vm_compute. apply list_elem_of_here.
Defined.

(** ** Results of [execute] *)







(** C6, the claim as stated fails: when the run times out on a host whose
    heap statistics are readable (5000000 bytes in use), the result reports
    memoryUsed = 0. *)
Lemma failed_run_reports_zero_memory :
  ¬ memory_read_from_heap (sample_host ∅ timing_out_ivm) (sample_request basic None)
      initial_state.
Proof.
  intros Hread.
  destruct (execute_inversion (sample_host ∅ timing_out_ivm) (sample_request basic None)
              initial_state) as (r & s' & Hrun & _ & _ & _ & Hcase).
  specialize (Hread r s' 5000000 Hrun eq_refl).
  destruct Hcase as [used _ _ Hfirst _ _ _ _ _ _ | Hacc _ _ | e _ Hnew _ _
                    | e _ _ _ (_ & _ & Hmem & _) _].
  - vm_compute in Hfirst. discriminate.
  - vm_compute in Hacc. discriminate.
  - vm_compute in Hnew. discriminate.
  - rewrite Hmem in Hread. discriminate.
Qed.

(** C6, amended: for every execution that succeeds, the reported memory used
    is the used heap size read from the isolate's heap statistics just before
    disposal; for every execution that fails, the reported memory used is 0. *)
Theorem memory_reported_on_success_only (h : Host) (request : ExecutionRequest)
    (s s' : State) (r : ExecutionResult) :
  execute h request s = (Returned r, s') →
  if success r
  then ivm_used_heap_size (host_ivm h) (length (isolates s)) = Returned (memoryUsed r)
  else memoryUsed r = 0.
Proof.
  intros Hrun.
  destruct (execute_inversion h request s) as (r0 & s0 & Hrun0 & _ & _ & _ & Hcase).
  rewrite Hrun in Hrun0. injection Hrun0 as <- <-.
  destruct Hcase as [used _ _ _ Hused Hok _ Hmem _ _ | _ (Hs & _ & Hmem & _) _
                    | e _ _ (Hs & _ & Hmem & _) _ | e _ _ _ (Hs & _ & Hmem & _) _].
  - rewrite Hok, Hmem. exact Hused.
  - by rewrite Hs.
  - by rewrite Hs.
  - by rewrite Hs.
Qed.

Lemma memory_reported_on_success_only_witness :
  ∃ r s', execute (sample_host ∅ quiet_ivm) (sample_request basic None) initial_state
          = (Returned r, s')
    ∧ success r = true
    ∧ ivm_used_heap_size quiet_ivm 0 = Returned (memoryUsed r).
Proof.
  destruct (execute (sample_host ∅ quiet_ivm) (sample_request basic None) initial_state)
    as [o s'] eqn:Hrun.
  pose proof Hrun as Hval. vm_compute in Hval.
  injection Hval as Ho Hs'. subst o s'.
  do 2 eexists. split; [reflexivity|]. split; [reflexivity|].
  exact (memory_reported_on_success_only _ _ _ _ _ Hrun).
Defined.

(** ** Error messages *)





(** The classification goes by the words of the lower-level message: an
    abort whose text says "timed out" contains neither keyword and is
    surfaced as it is. *)
Example timed_out_text_surfaced_unchanged :
  ∃ r s', execute (sample_host ∅ timing_out_ivm) (sample_request basic None) initial_state
          = (Returned r, s')
    ∧ error r = Some "Script execution timed out.".
Proof. do 2 eexists. split; [vm_compute; reflexivity|]. reflexivity. Qed.

(** ** Proofs of execution *)

Lemma generateProof_reproducible (h : Host) (data : list (string * json)) (s1 s2 : State) :
  host_clock h (ticks s1) = host_clock h (ticks s2) →
  (generateProof h data s1).1 = (generateProof h data s2).1.
Proof. intros Hclock. rewrite !generateProof_run. cbn [fst]. by rewrite Hclock. Qed.

(** C1: for every input tuple, a proof generated and then verified over the
    same data at the same logical timestamp (the clock reads the same value
    at both calls) is accepted: [verifyProof] returns true. *)
Theorem fresh_proof_verifies (h : Host) (data : list (string * json)) (s : State) :
  host_clock h (S (ticks s)) = host_clock h (ticks s) →
  ∃ prf s1 s2,
    generateProof h data s = (Returned prf, s1)
    ∧ verifyProof h prf data s1 = (Returned true, s2).
Proof.
  intros Hclock.
  rewrite generateProof_run. do 3 eexists. split; [reflexivity|].
  unfold verifyProof, bind. rewrite generateProof_run. cbn [ticks].
  unfold ret. rewrite Hclock, String.eqb_refl. reflexivity.
Qed.

Lemma fresh_proof_verifies_witness :
  ∃ prf s1 s2,
    generateProof frozen_host [("code", JString "2+2"); ("output", JString "4")]
                  initial_state = (Returned prf, s1)
    ∧ verifyProof frozen_host prf [("code", JString "2+2"); ("output", JString "4")] s1
      = (Returned true, s2).
Proof.
  exact (fresh_proof_verifies frozen_host [("code", JString "2+2"); ("output", JString "4")]
           initial_state eq_refl).
Defined.

(** The timestamp is read from the clock at each call: once the clock has
    moved on, the same data no longer reproduce the digest. *)
Lemma stale_proof_rejected :
  ∃ prf s1 s2,
    generateProof (sample_host ∅ quiet_ivm) [("code", JString "2+2"); ("output", JString "4")]
                  initial_state = (Returned prf, s1)
    ∧ verifyProof (sample_host ∅ quiet_ivm) prf
                  [("code", JString "2+2"); ("output", JString "4")] s1
      = (Returned false, s2).
Proof. do 3 eexists. split; [reflexivity|]. vm_compute. reflexivity. Qed.

(** ** The payment challenge *)



(** ** Validation of the request body *)

Lemma code_issue_listed (p : list string) (fields : list (string * json)) :
  field_violated "code" fields = true →
  ∃ i rest,
    issues_of (z_string [check_min 1 "Code cannot be empty"; check_max 10000 "Code too large"]
                 p (obj_get "code" fields)) = i :: rest
    ∧ issue_path i = p.
Proof.
  unfold field_violated. cbn [String.eqb Ascii.eqb Bool.eqb].
  destruct (obj_get "code" fields) as [| |b|z|c|items|o]; intros Hbad;
    try (by do 2 eexists).
  unfold z_string. cbn [map concat string_check_issues app].
  destruct (Z.of_nat (String.length c) <? 1) eqn:Hmin.
  { destruct (10000 <? Z.of_nat (String.length c)); by do 2 eexists. }
  destruct (10000 <? Z.of_nat (String.length c)) eqn:Hmax.
  { by do 2 eexists. }
  apply orb_prop in Hbad as [Hzero | Hbig]; [|congruence].
  apply Nat.eqb_eq in Hzero. rewrite Hzero in Hmin. done.
Qed.

Lemma enum_issue_listed {A} (p : list string) (values : list (string * A)) (v : json) :
  (∀ s, v = JString s → enum_lookup values s = None) →
  ∃ i rest, issues_of (z_enum values p v) = i :: rest ∧ issue_path i = p.
Proof.
  intros Hbad. unfold z_enum.
  destruct v as [| |b|z|s|items|o]; try (by do 2 eexists).
  rewrite (Hbad s eq_refl). by do 2 eexists.
Qed.

Lemma language_issue_listed (p : list string) (fields : list (string * json)) :
  field_violated "language" fields = true →
  ∃ i rest,
    issues_of (z_enum [("javascript", javascript); ("python", python)]
                 p (obj_get "language" fields)) = i :: rest
    ∧ issue_path i = p.
Proof.
  unfold field_violated. cbn [String.eqb Ascii.eqb Bool.eqb].
  intros Hbad. apply enum_issue_listed. intros s Hs. rewrite Hs in Hbad.
  cbn [enum_lookup].
  apply negb_true_iff, orb_false_elim in Hbad as [-> ->]. done.
Qed.

Lemma tier_issue_listed (p : list string) (fields : list (string * json)) :
  field_violated "tier" fields = true →
  ∃ i rest,
    issues_of (z_enum [("basic", basic); ("standard", standard); ("premium", premium)]
                 p (obj_get "tier" fields)) = i :: rest
    ∧ issue_path i = p.
Proof.
  unfold field_violated. cbn [String.eqb Ascii.eqb Bool.eqb].
  intros Hbad. apply enum_issue_listed. intros s Hs. rewrite Hs in Hbad.
  cbn [enum_lookup].
  apply negb_true_iff, orb_false_elim in Hbad as [[-> ->]%orb_false_elim ->]. done.
Qed.

Lemma timeout_issue_listed (p : list string) (fields : list (string * json)) :
  field_violated "timeout" fields = true →
  ∃ i rest,
    issues_of (z_optional z_number p (obj_get "timeout" fields)) = i :: rest
    ∧ issue_path i = p.
Proof.
  unfold field_violated. cbn [String.eqb Ascii.eqb Bool.eqb].
  destruct (obj_get "timeout" fields) as [| |b|z|s|items|o]; intros Hbad;
    try discriminate; by do 2 eexists.
Qed.

(** The object schema fails as soon as one key has an issue, and then
    reports the issues of all four keys, in the order of the shape. *)
Lemma ExecuteRequestSchema_collects (path : list string) (fields : list (string * json)) :
  collected_issues path fields ≠ [] →
  ExecuteRequestSchema path (JObject fields) = inr (collected_issues path fields).
Proof.
  unfold collected_issues, ExecuteRequestSchema.
  destruct (z_string _ _ _) as [c|ci]; destruct (z_enum _ (path ++ ["language"]) _) as [l|li];
    destruct (z_enum _ (path ++ ["tier"]) _) as [t|ti];
    destruct (z_optional _ _ _) as [o|oi]; cbn [issues_of app]; intros Hne;
    done.
Qed.

Lemma violated_field_collected (fields : list (string * json)) (field : string) :
  field_violated field fields = true →
  ∃ issue, issue ∈ collected_issues [] fields ∧ issue_path issue = [field].
Proof.
  intros Hbad. unfold collected_issues.
  destruct (String.eqb_spec field "code") as [->|Hcode].
  { destruct (code_issue_listed ([] ++ ["code"]) fields Hbad) as (i & rest & -> & Hpath).
    exists i. split; [|exact Hpath]. apply list_elem_of_here. }
  destruct (String.eqb_spec field "language") as [->|Hlanguage].
  { destruct (language_issue_listed ([] ++ ["language"]) fields Hbad)
      as (i & rest & -> & Hpath).
    exists i. split; [|exact Hpath].
    apply elem_of_app. right. apply list_elem_of_here. }
  destruct (String.eqb_spec field "tier") as [->|Htier].
  { destruct (tier_issue_listed ([] ++ ["tier"]) fields Hbad) as (i & rest & -> & Hpath).
    exists i. split; [|exact Hpath].
    do 2 (apply elem_of_app; right). apply list_elem_of_here. }
  destruct (String.eqb_spec field "timeout") as [->|Htimeout].
  { destruct (timeout_issue_listed ([] ++ ["timeout"]) fields Hbad)
      as (i & rest & -> & Hpath).
    exists i. split; [|exact Hpath].
    do 3 (apply elem_of_app; right). apply list_elem_of_here. }
  unfold field_violated in Hbad.
  apply String.eqb_neq in Hcode, Hlanguage, Htier, Htimeout.
  rewrite Hcode, Hlanguage, Htier, Htimeout in Hbad. discriminate.
Qed.

Lemma executeHandler_invalid (h : Host) (req : X402Request) (s : State)
    (issues : list ZodIssue) :
  safeParse ExecuteRequestSchema (req_body req) = inr issues →
  executeHandler h req s
  = (Returned {| status := 400;
                 body := InvalidRequest "Invalid Request" "Request validation failed"
                           issues |}, s).
Proof. intros Hbad. unfold executeHandler, try_catch. by rewrite Hbad. Qed.

(** C8: for every request body that is an object, each field that violates
    the schema (code not a string, empty or longer than 10000 characters;
    language or tier not one of the declared names; timeout present and not a
    number) has an issue of its own in the details of the 400 response, so a
    body invalid in several fields gets all of them listed. *)
Theorem validation_lists_every_violated_field (h : Host) (req : X402Request) (s : State)
    (fields : list (string * json)) (field : string) :
  req_body req = JObject fields →
  field_violated field fields = true →
  ∃ details,
    executeHandler h req s
    = (Returned {| status := 400;
                   body := InvalidRequest "Invalid Request" "Request validation failed"
                             details |}, s)
    ∧ ∃ issue, issue ∈ details ∧ issue_path issue = [field].
Proof.
  intros Hbody Hbad.
  destruct (violated_field_collected fields field Hbad) as (issue & Hin & Hpath).
  exists (collected_issues [] fields). split; [|by exists issue].
  apply executeHandler_invalid. rewrite Hbody. unfold safeParse.
  apply ExecuteRequestSchema_collects. intros Hnil. rewrite Hnil in Hin.
  by apply elem_of_nil in Hin.
Qed.

Lemma validation_lists_every_violated_field_witness :
  ∃ details,
    executeHandler (sample_host ∅ quiet_ivm) malformed_request initial_state
    = (Returned {| status := 400;
                   body := InvalidRequest "Invalid Request" "Request validation failed"
                             details |}, initial_state)
    ∧ (∃ issue, issue ∈ details ∧ issue_path issue = ["code"])
    ∧ (∃ issue, issue ∈ details ∧ issue_path issue = ["language"])
    ∧ (∃ issue, issue ∈ details ∧ issue_path issue = ["tier"])
    ∧ (∃ issue, issue ∈ details ∧ issue_path issue = ["timeout"]).
Proof.
  pose proof (fun field =>
                validation_lists_every_violated_field (sample_host ∅ quiet_ivm)
                  malformed_request initial_state _ field eq_refl) as Hall.
  destruct (Hall "code" eq_refl) as (d1 & Hrun1 & Hcode).
  destruct (Hall "language" eq_refl) as (d2 & Hrun2 & Hlanguage).
  destruct (Hall "tier" eq_refl) as (d3 & Hrun3 & Htier).
  destruct (Hall "timeout" eq_refl) as (d4 & Hrun4 & Htimeout).
  assert (d2 = d1 ∧ d3 = d1 ∧ d4 = d1) as (-> & -> & ->)
    by (repeat split; congruence).
  exists d1. repeat split; assumption.
Defined.

Example malformed_request_details :
  safeParse ExecuteRequestSchema (req_body malformed_request)
  = inr [ {| issue_code := too_small; issue_path := ["code"];
             issue_message := Some "Code cannot be empty" |};
          {| issue_code := invalid_enum_value; issue_path := ["language"];
             issue_message := None |};
          {| issue_code := invalid_enum_value; issue_path := ["tier"];
             issue_message := None |};
          {| issue_code := invalid_type; issue_path := ["timeout"];
             issue_message := None |} ].
Proof. reflexivity. Qed.

(* ===================================================================== *)
(** * Part III: further properties of the code *)
(* ===================================================================== *)

(** ** The executor, path by path *)

Ltac run_execute :=
  do 2 eexists; split; [reflexivity|]; cbn [ticks drawn with_isolates];
  repeat (split; [first [reflexivity | lia | by intros ?]|]).

(** What [execute] consumes and how it stamps the result: sixteen random
    bytes, three readings of the clock, the elapsed time between the first two
    readings, and for a success the digest of the result's own fields at the
    third reading. *)
Lemma execute_accounting (h : Host) (request : ExecutionRequest) (s : State) :
  ∃ r s', execute h request s = (Returned r, s')
    ∧ ticks s' = (ticks s + 3)%nat
    ∧ drawn s' = (drawn s + 16)%nat
    ∧ executionTime r = host_clock h (S (ticks s)) - host_clock h (ticks s)
    ∧ (success r = true →
       proof r = sha256_hex (proofData (CONFIG (host_env h))
                               (host_clock h (S (S (ticks s))))
                               (success_data request r))).
Proof.
  unfold execute, bind, try_catch, nanoid, Date_now, throw_if, throw, ret.
  cbv zeta. cbn [fst snd].
  destruct (array_includes _ _); cbn [negb];
    [destruct (String.eqb _ _); cbn [negb]|].
  - rewrite executeJavaScript_outcome. cbv zeta. cbn [isolates].
    destruct (ivm_construct _ _ _) as [e|].
    + run_execute. by intros ?.
    + destruct (first_ivm_error _ _ _ _) as [e|].
      * run_execute. by intros ?.
      * destruct (ivm_used_heap_size _ _) as [used|e].
        -- run_execute. by intros _.
        -- run_execute. by intros ?.
  - run_execute. by intros ?.
  - run_execute. by intros ?.
Qed.

Lemma language_accepted_javascript (h : Host) (request : ExecutionRequest) :
  language_accepted h request = true →
  req_language request = javascript
  ∧ array_includes (allowedLanguages (sandbox (CONFIG (host_env h)))) "javascript" = true.
Proof.
  unfold language_accepted. intros [Hinc Hjs]%andb_prop.
  destruct (req_language request); [|discriminate]. by split.
Qed.

(** X1: only JavaScript is ever run.  A request whose result is a success
    names the language javascript, and javascript is among the configured
    allowed languages. *)
Theorem only_javascript_succeeds (h : Host) (request : ExecutionRequest) (s s' : State)
    (r : ExecutionResult) :
  execute h request s = (Returned r, s') →
  success r = true →
  req_language request = javascript
  ∧ array_includes (allowedLanguages (sandbox (CONFIG (host_env h)))) "javascript" = true.
Proof.
  intros Hrun Hok.
  destruct (execute_inversion h request s) as (r0 & s0 & Hrun0 & _ & _ & _ & Hcase).
  rewrite Hrun in Hrun0. injection Hrun0 as <- <-.
  destruct Hcase as [used Hacc _ _ _ _ _ _ _ _ | _ (Hs & _) _ | e _ _ (Hs & _) _
                    | e _ _ _ (Hs & _) _]; try congruence.
  by apply language_accepted_javascript.
Qed.

Lemma only_javascript_succeeds_witness :
  ∃ r s', execute (sample_host ∅ quiet_ivm) (sample_request basic None) initial_state
          = (Returned r, s')
    ∧ success r = true
    ∧ req_language (sample_request basic None) = javascript.
Proof.
  destruct (execute (sample_host ∅ quiet_ivm) (sample_request basic None) initial_state)
    as [o s'] eqn:Hrun.
  pose proof Hrun as Hval. vm_compute in Hval.
  injection Hval as Ho Hs'. subst o s'.
  do 2 eexists. split; [reflexivity|]. split; [reflexivity|].
  exact (proj1 (only_javascript_succeeds _ _ _ _ _ Hrun eq_refl)).
Defined.

(** X2: a request that fails a language check never reaches isolated-vm.  The
    result is a failure, no isolate is created, and the error says "Python
    execution coming soon. Use JavaScript for now." when the language is among
    the allowed ones, "Language <name> not supported" when it is not. *)
Theorem refused_language_creates_no_isolate (h : Host) (request : ExecutionRequest)
    (s : State) :
  language_accepted h request = false →
  ∃ r s', execute h request s = (Returned r, s')
    ∧ success r = false
    ∧ isolates s' = isolates s
    ∧ error r = Some (if array_includes (allowedLanguages (sandbox (CONFIG (host_env h))))
                                        (language_name (req_language request))
                      then "Python execution coming soon. Use JavaScript for now."
                      else "Language " +:+ language_name (req_language request)
                                       +:+ " not supported").
Proof.
  intros Hrefused.
  destruct (execute_inversion h request s) as (r & s' & Hrun & _ & _ & _ & Hcase).
  exists r, s'. split; [exact Hrun|].
  destruct Hcase as [used Hacc _ _ _ _ _ _ _ _ | _ (Hs & _ & _ & Herr) Hiso | e Hacc _ _ _
                    | e Hacc _ _ _ _]; try congruence.
  split; [exact Hs|]. split; [exact Hiso|].
  rewrite Herr. unfold language_error.
  destruct (array_includes _ _); reflexivity.
Qed.

Lemma refused_language_creates_no_isolate_witness :
  ∃ r s', execute (sample_host ∅ quiet_ivm)
                  {| req_code := "print(1)"; req_language := python;
                     req_tier := premium; req_timeout := None |} initial_state
          = (Returned r, s')
    ∧ isolates s' = []
    ∧ error r = Some "Python execution coming soon. Use JavaScript for now.".
Proof.
  assert (Hrefused : language_accepted (sample_host ∅ quiet_ivm)
                       {| req_code := "print(1)"; req_language := python;
                          req_tier := premium; req_timeout := None |} = false)
    by (vm_compute; reflexivity).
  destruct (refused_language_creates_no_isolate _ _ initial_state Hrefused)
    as (r & s' & Hrun & _ & Hiso & Herr).
  exists r, s'. split; [exact Hrun|]. split; [exact Hiso|]. exact Herr.
Defined.

(** X3: when the constructor of the isolate throws, the error is outside the
    [try] block of [executeJavaScript]: no isolate exists afterwards and the
    result carries the constructor's own message, not rewritten even if it
    mentions "timeout" or "memory". *)
Theorem constructor_error_surfaced_unchanged (h : Host) (request : ExecutionRequest)
    (s : State) (e : JsError) :
  language_accepted h request = true →
  ivm_construct (host_ivm h) (length (isolates s))
                (memory (TIER_LIMITS (req_tier request))) = Some e →
  ∃ r s', execute h request s = (Returned r, s')
    ∧ success r = false
    ∧ error r = Some (message_or_unknown e)
    ∧ isolates s' = isolates s.
Proof.
  intros Hacc Hnew.
  destruct (execute_inversion h request s) as (r & s' & Hrun & _ & _ & _ & Hcase).
  exists r, s'. split; [exact Hrun|].
  destruct Hcase as [used _ Hnone _ _ _ _ _ _ _ | Hrefused _ _ | e' _ Hsome (Hs & _ & _ & Herr) Hiso
                    | e' _ Hnone _ _ _]; try congruence.
  assert (e' = e) as -> by congruence. by repeat split.
Qed.

Lemma constructor_error_surfaced_unchanged_witness :
  ∃ r s', execute (sample_host ∅
                     {| ivm_construct := fun _ _ => Some (Error "Array buffer allocation failed: out of memory");
                        ivm_createContext := ivm_createContext quiet_ivm;
                        ivm_global_set := ivm_global_set quiet_ivm;
                        ivm_compileScript := ivm_compileScript quiet_ivm;
                        ivm_run := ivm_run quiet_ivm;
                        ivm_used_heap_size := ivm_used_heap_size quiet_ivm |})
                  (sample_request basic None) initial_state
          = (Returned r, s')
    ∧ error r = Some "Array buffer allocation failed: out of memory"
    ∧ isolates s' = [].
Proof.
  match goal with
  | |- ∃ r s', execute ?h ?q ?s = _ ∧ _ =>
      assert (Hacc : language_accepted h q = true) by (vm_compute; reflexivity);
      destruct (constructor_error_surfaced_unchanged h q s _ Hacc eq_refl)
        as (r & s' & Hrun & _ & Herr & Hiso)
  end.
  exists r, s'. split; [exact Hrun|]. split; [exact Herr|]. exact Hiso.
Defined.

(** X4: a run that isolated-vm completes.  When the language is accepted and
    isolated-vm raises nothing, the result is a success without an error
    field, its output is the logged messages, each followed by a line feed,
    trimmed, its memory figure is the used heap size, and the call leaves one
    disposed isolate, created with the tier's memory ceiling and run once with
    the effective timeout. *)
Theorem completed_run_result (h : Host) (request : ExecutionRequest) (s : State) :
  language_accepted h request = true →
  ivm_construct (host_ivm h) (length (isolates s))
                (memory (TIER_LIMITS (req_tier request))) = None →
  first_ivm_error h (length (isolates s)) (req_code request) (execute_timeout request)
    = None →
  ∃ r s', execute h request s = (Returned r, s')
    ∧ success r = true ∧ error r = None
    ∧ output r = trim (captured (logged (ivm_run (host_ivm h) (length (isolates s))
                                           (wrappedCode (req_code request))
                                           (execute_timeout request))))
    ∧ ivm_used_heap_size (host_ivm h) (length (isolates s)) = Returned (memoryUsed r)
    ∧ isolates s' = isolates s ++ [{| memoryLimit := memory (TIER_LIMITS (req_tier request));
                                      disposed := true;
                                      run_timeouts := [execute_timeout request] |}].
Proof.
  intros Hacc Hnew Hfirst.
  destruct (execute_inversion h request s) as (r & s' & Hrun & _ & _ & _ & Hcase).
  exists r, s'. split; [exact Hrun|].
  destruct Hcase as [used _ _ _ Hused Hok Herr Hmem Hout Hiso | Hrefused _ _ | e' _ Hsome _ _
                    | e' _ _ Hsome _ _]; try congruence.
  rewrite Hmem. by repeat split.
Qed.

Lemma completed_run_result_witness :
  ∃ r s', execute (sample_host ∅ quiet_ivm) (sample_request standard (Some 1500))
                  initial_state = (Returned r, s')
    ∧ success r = true ∧ output r = "4" ∧ memoryUsed r = 2048576
    ∧ isolates s' = [{| memoryLimit := 128; disposed := true; run_timeouts := [1500] |}].
Proof.
  assert (Hacc : language_accepted (sample_host ∅ quiet_ivm)
                   (sample_request standard (Some 1500)) = true)
    by (vm_compute; reflexivity).
  destruct (completed_run_result (sample_host ∅ quiet_ivm)
              (sample_request standard (Some 1500)) initial_state Hacc eq_refl eq_refl)
    as (r & s' & Hrun & Hok & _ & Hout & Hmem & Hiso).
  exists r, s'. split; [exact Hrun|]. split; [exact Hok|].
  split; [exact Hout|]. split; [|exact Hiso].
  cbn in Hmem. congruence.
Defined.

(** X5: one call of [execute] creates at most one isolate; that isolate gets
    the memory ceiling of the requested tier as its limit and is run at most
    once. *)
Theorem isolate_limited_to_tier_memory (h : Host) (request : ExecutionRequest) (s : State)
    (iso : Isolate) :
  iso ∈ new_isolates s (execute h request s).2 →
  memoryLimit iso = memory (TIER_LIMITS (req_tier request))
  ∧ (length (new_isolates s (execute h request s).2) <= 1)%nat
  ∧ (length (run_timeouts iso) <= 1)%nat.
Proof.
  destruct (execute_isolates h request s) as (l & Hiso & Hl).
  rewrite (new_isolates_app _ _ _ Hiso).
  destruct Hl as [-> | (rts & -> & Hrts)].
  - by intros ?%elem_of_nil.
  - intros ->%list_elem_of_singleton. cbn.
    split; [reflexivity|]. split; [lia|].
    destruct Hrts as [-> | ->]; cbn; lia.
Qed.

Lemma isolate_limited_to_tier_memory_witness :
  ∃ iso, iso ∈ new_isolates initial_state
                 (execute (sample_host ∅ quiet_ivm) (sample_request premium None)
                          initial_state).2
    ∧ memoryLimit iso = 256.
Proof.
  exists {| memoryLimit := 256; disposed := true; run_timeouts := [60000] |}.
  assert (Hin : {| memoryLimit := 256; disposed := true; run_timeouts := [60000] |}
                ∈ new_isolates initial_state
                    (execute (sample_host ∅ quiet_ivm) (sample_request premium None)
                             initial_state).2)
    by (vm_compute; apply list_elem_of_here).
  split; [exact Hin|].
  exact (proj1 (isolate_limited_to_tier_memory _ _ _ _ Hin)).
Defined.

(** X6: the proof of a successful result can be checked with [verifyProof]
    from the result's own fields, as long as the clock has not moved since the
    proof was stamped: given code, output, executionTime and executionId as
    returned, verification right after [execute] answers true when the clock
    reads at that call what it read at the third reading of [execute]. *)
Theorem own_proof_verifies (h : Host) (request : ExecutionRequest) (s s' : State)
    (r : ExecutionResult) :
  execute h request s = (Returned r, s') →
  success r = true →
  host_clock h (ticks s') = host_clock h (S (S (ticks s))) →
  (verifyProof h (proof r) (success_data request r) s').1 = Returned true.
Proof.
  intros Hrun Hok Hclock.
  destruct (execute_accounting h request s) as (r0 & s0 & Hrun0 & _ & _ & _ & Hprf).
  rewrite Hrun in Hrun0. injection Hrun0 as <- <-.
  unfold verifyProof, bind. rewrite generateProof_run. unfold ret. cbn [fst].
  rewrite (Hprf Hok), Hclock. by rewrite String.eqb_refl.
Qed.

Lemma own_proof_verifies_witness :
  ∃ r s', execute frozen_host (sample_request basic None) initial_state = (Returned r, s')
    ∧ success r = true
    ∧ (verifyProof frozen_host (proof r) (success_data (sample_request basic None) r) s').1
      = Returned true.
Proof.
  destruct (execute frozen_host (sample_request basic None) initial_state)
    as [o s'] eqn:Hrun.
  pose proof Hrun as Hval. vm_compute in Hval.
  injection Hval as Ho Hs'. subst o s'.
  do 2 eexists. split; [reflexivity|]. split; [reflexivity|].
  exact (own_proof_verifies _ _ _ _ _ Hrun eq_refl eq_refl).
Defined.

(** X7: the elapsed time of a result is the difference between the second and
    the first reading of the clock made by [execute], so it is never negative
    on a host whose clock never goes back; the time spent stamping the proof
    (the third reading) is not part of it. *)
Theorem executionTime_nonnegative (h : Host) (request : ExecutionRequest) (s s' : State)
    (r : ExecutionResult) :
  (∀ n, host_clock h n <= host_clock h (S n)) →
  execute h request s = (Returned r, s') →
  executionTime r = host_clock h (S (ticks s)) - host_clock h (ticks s)
  ∧ 0 <= executionTime r.
Proof.
  intros Hmono Hrun.
  destruct (execute_accounting h request s) as (r0 & s0 & Hrun0 & _ & _ & Htime & _).
  rewrite Hrun in Hrun0. injection Hrun0 as <- <-.
  split; [exact Htime|]. rewrite Htime. specialize (Hmono (ticks s)). lia.
Qed.

Lemma executionTime_nonnegative_witness :
  ∃ r s', execute (sample_host ∅ quiet_ivm) (sample_request basic None) initial_state
          = (Returned r, s')
    ∧ executionTime r = 1.
Proof.
  destruct (execute (sample_host ∅ quiet_ivm) (sample_request basic None) initial_state)
    as [o s'] eqn:Hrun.
  pose proof Hrun as Hval. vm_compute in Hval.
  injection Hval as Ho Hs'. subst o s'.
  do 2 eexists. split; [reflexivity|].
  assert (Hmono : ∀ n, host_clock (sample_host ∅ quiet_ivm) n
                       <= host_clock (sample_host ∅ quiet_ivm) (S n))
    by (intros n; cbn; lia).
  exact (proj1 (executionTime_nonnegative _ _ _ _ _ Hmono Hrun)).
Defined.

(** ** Captured output *)

Lemma append_cons (c : ascii) (a b : string) : String c a +:+ b = String c (a +:+ b).
Proof. reflexivity. Qed.

Lemma append_empty_l (s : string) : EmptyString +:+ s = s.
Proof. reflexivity. Qed.

Lemma append_empty_r (s : string) : s +:+ EmptyString = s.
Proof. induction s as [|c s IH]; [done|]. by rewrite append_cons, IH. Qed.

Lemma append_assoc (a b c : string) : (a +:+ b) +:+ c = a +:+ (b +:+ c).
Proof. induction a as [|x a IH]; [done|]. by rewrite !append_cons, IH. Qed.

Lemma skip_space_clean_head (s : string) : clean_head (skip_space s).
Proof.
  induction s as [|c s IH]; [done|]. cbn [skip_space].
  destruct (is_js_space c) eqn:Hc; [exact IH|]. exact Hc.
Qed.

Lemma trimEnd_clean_tail (s : string) : clean_tail (trimEnd s).
Proof.
  induction s as [|c s IH]; [done|]. cbn [trimEnd].
  destruct (trimEnd s) as [|d r] eqn:Hr.
  - destruct (is_js_space c) eqn:Hc; [done|]. exact Hc.
  - exact IH.
Qed.

Lemma trimEnd_clean_head (s : string) : clean_head s → clean_head (trimEnd s).
Proof.
  destruct s as [|c s]; [done|]. cbn [trimEnd clean_head]. intros Hc.
  destruct (trimEnd s); [by rewrite Hc|done].
Qed.

Lemma skip_space_fixed (s : string) : clean_head s → skip_space s = s.
Proof. destruct s as [|c s]; [done|]. cbn. by intros ->. Qed.

Lemma trimEnd_fixed (s : string) : clean_tail s → trimEnd s = s.
Proof.
  induction s as [|c s IH]; [done|]. cbn [trimEnd]. intros Hclean.
  destruct s as [|d r].
  - cbn in *. by rewrite Hclean.
  - rewrite IH by exact Hclean. done.
Qed.

Lemma trim_clean (s : string) :
  clean_head (trim s) ∧ clean_tail (trim s) ∧ trim (trim s) = trim s.
Proof.
  assert (Hhead : clean_head (trim s))
    by (apply trimEnd_clean_head, skip_space_clean_head).
  assert (Htail : clean_tail (trim s)) by apply trimEnd_clean_tail.
  split; [exact Hhead|]. split; [exact Htail|].
  unfold trim at 1. rewrite (skip_space_fixed _ Hhead). by apply trimEnd_fixed.
Qed.

Lemma trimEnd_line_feed (s : string) : trimEnd (s +:+ nl) = trimEnd s.
Proof.
  induction s as [|c s IH]; [done|].
  rewrite append_cons. cbn [trimEnd]. by rewrite IH.
Qed.

Lemma skip_space_line_feed (s : string) :
  skip_space (s +:+ nl) = skip_space s +:+ nl ∨ (skip_space (s +:+ nl) = EmptyString
                                                ∧ skip_space s = EmptyString).
Proof.
  induction s as [|c s IH]; [by right|].
  rewrite append_cons. cbn [skip_space]. destruct (is_js_space c); [exact IH|by left].
Qed.

Lemma trim_line_feed (s : string) : trim (s +:+ nl) = trim s.
Proof.
  unfold trim. destruct (skip_space_line_feed s) as [-> | [-> ->]]; [|done].
  apply trimEnd_line_feed.
Qed.

Lemma captured_from (msgs : list string) (acc : string) :
  fold_left (fun out msg => out +:+ (msg +:+ nl)) msgs acc = acc +:+ captured msgs.
Proof.
  unfold captured. revert acc. induction msgs as [|m ms IH]; intros acc.
  - cbn. by rewrite append_empty_r.
  - cbn [fold_left]. rewrite IH, (IH (EmptyString +:+ _)).
    by rewrite append_empty_l, append_assoc.
Qed.

Lemma captured_lines (msgs : list string) :
  captured msgs = match msgs with [] => EmptyString | _ => join nl msgs +:+ nl end.
Proof.
  induction msgs as [|m ms IH]; [done|].
  unfold captured. cbn [fold_left]. rewrite captured_from, IH.
  rewrite append_empty_l. cbn [join].
  destruct ms as [|m' ms']; [by rewrite append_empty_r|].
  by rewrite !append_assoc.
Qed.

Lemma trim_captured (msgs : list string) : trim (captured msgs) = trim (join nl msgs).
Proof.
  rewrite captured_lines. destruct msgs; [done|]. apply trim_line_feed.
Qed.

(** X8: the output of a successful result is the logged messages joined by
    line feeds and trimmed: it neither starts nor ends with white space, and
    a run that logs nothing has the empty output. *)
Theorem output_is_trimmed_log (h : Host) (request : ExecutionRequest) (s s' : State)
    (r : ExecutionResult) :
  execute h request s = (Returned r, s') →
  success r = true →
  output r = trim (join nl (logged (ivm_run (host_ivm h) (length (isolates s))
                                      (wrappedCode (req_code request))
                                      (execute_timeout request))))
  ∧ clean_head (output r) ∧ clean_tail (output r).
Proof.
  intros Hrun Hok.
  destruct (execute_inversion h request s) as (r0 & s0 & Hrun0 & _ & _ & _ & Hcase).
  rewrite Hrun in Hrun0. injection Hrun0 as <- <-.
  destruct Hcase as [used _ _ _ _ _ _ _ Hout _ | _ (Hs & _) _ | e _ _ (Hs & _) _
                    | e _ _ _ (Hs & _) _]; try congruence.
  rewrite Hout, trim_captured. split; [reflexivity|]. split; apply trim_clean.
Qed.

Lemma output_is_trimmed_log_witness :
  ∃ r s', execute (sample_host ∅
                     {| ivm_construct := ivm_construct quiet_ivm;
                        ivm_createContext := ivm_createContext quiet_ivm;
                        ivm_global_set := ivm_global_set quiet_ivm;
                        ivm_compileScript := ivm_compileScript quiet_ivm;
                        ivm_run := fun _ _ _ =>
                          {| logged := ["  first"; "second "; EmptyString]; failure := None |};
                        ivm_used_heap_size := ivm_used_heap_size quiet_ivm |})
                  (sample_request basic None) initial_state = (Returned r, s')
    ∧ output r = "first" +:+ nl +:+ "second".
Proof.
  match goal with
  | |- ∃ r s', execute ?h ?q ?s = _ ∧ _ =>
      destruct (execute h q s) as [o s'] eqn:Hrun;
      pose proof Hrun as Hval; vm_compute in Hval;
      injection Hval as Ho Hs'; subst o s';
      do 2 eexists; split; [reflexivity|];
      exact (proj1 (output_is_trimmed_log h q s _ _ Hrun eq_refl))
  end.
Defined.

(** ** The stamped proof data *)

Lemma obj_get_set_eq (k : string) (v : json) (o : list (string * json)) :
  obj_get k (obj_set k v o) = v.
Proof.
  induction o as [|[k' v'] o IH]; cbn [obj_set obj_get].
  - by rewrite String.eqb_refl.
  - destruct (String.eqb k k') eqn:Hk; cbn [obj_get]; rewrite ?Hk, ?String.eqb_refl; done.
Qed.

Lemma obj_get_set_ne (k k' : string) (v : json) (o : list (string * json)) :
  k' ≠ k → obj_get k' (obj_set k v o) = obj_get k' o.
Proof.
  intros Hne. apply String.eqb_neq in Hne.
  induction o as [|[k0 v0] o IH]; cbn [obj_set obj_get].
  - by rewrite Hne.
  - destruct (String.eqb k k0) eqn:Hk; cbn [obj_get].
    + apply String.eqb_eq in Hk as <-. by rewrite Hne.
    + by rewrite IH.
Qed.

Lemma obj_set_keys (k : string) (v : json) (o : list (string * json)) :
  o.*1 ⊆ (obj_set k v o).*1 ∧ (∀ k', k' ∈ (obj_set k v o).*1 → k' = k ∨ k' ∈ o.*1).
Proof.
  induction o as [|[k0 v0] o [IHsub IHin]]; cbn [obj_set].
  - split; [apply list_subseteq_nil|]. intros k' ->%list_elem_of_singleton. by left.
  - destruct (String.eqb k k0) eqn:Hk.
    + apply String.eqb_eq in Hk as <-. cbn. split; [done|]. intros k' Hin. by right.
    + cbn. split.
      * intros x [->|Hx]%elem_of_cons; [apply list_elem_of_here|].
        apply list_elem_of_further, IHsub, Hx.
      * intros k' [->|Hx]%elem_of_cons; [right; apply list_elem_of_here|].
        destruct (IHin k' Hx) as [->|Hin]; [by left|right; by apply list_elem_of_further].
Qed.

Lemma obj_set_NoDup (k : string) (v : json) (o : list (string * json)) :
  NoDup o.*1 → NoDup (obj_set k v o).*1.
Proof.
  induction o as [|[k0 v0] o IH]; cbn [obj_set].
  - intros _. cbn. apply NoDup_singleton.
  - intros [Hnotin Hnd]%NoDup_cons. destruct (String.eqb k k0) eqn:Hk.
    + apply String.eqb_eq in Hk as <-. cbn. by apply NoDup_cons.
    + cbn. apply NoDup_cons. split; [|by apply IH].
      intros Hin. destruct (proj2 (obj_set_keys k v o) k0 Hin) as [->|Hin'].
      * by rewrite String.eqb_refl in Hk.
      * done.
Qed.

(** X9: object spread with an added key, as [generateProof] uses it.  Setting
    a key and reading it back gives the value set, every other key reads as
    before, no key of the object is lost, and an object without duplicate keys
    stays without duplicates. *)
Theorem obj_set_round_trip (k : string) (v : json) (o : list (string * json)) :
  obj_get k (obj_set k v o) = v
  ∧ (∀ k', k' ≠ k → obj_get k' (obj_set k v o) = obj_get k' o)
  ∧ o.*1 ⊆ (obj_set k v o).*1
  ∧ (NoDup o.*1 → NoDup (obj_set k v o).*1).
Proof.
  split; [apply obj_get_set_eq|].
  split; [intros k' Hne; by apply obj_get_set_ne|].
  split; [apply obj_set_keys|apply obj_set_NoDup].
Qed.



Lemma obj_set_round_trip_witness :
  obj_get "output" (obj_set "output" (JString "4") [("code", JString "2+2")]) = JString "4"
  ∧ obj_get "code" (obj_set "output" (JString "4") [("code", JString "2+2")])
    = JString "2+2"
  ∧ NoDup (obj_set "output" (JString "4") [("code", JString "2+2")]).*1.
Proof.
  destruct (obj_set_round_trip "output" (JString "4") [("code", JString "2+2")])
    as (Hsame & Hother & _ & Hnd).
  split; [exact Hsame|]. split.
  - apply Hother. discriminate.
  - apply Hnd. cbn. apply NoDup_singleton.
Defined.


(** ** Configuration *)

Lemma split_on_cons (sep : ascii) (s : string) : ∃ w ws, split_on sep s = w :: ws.
Proof.
  destruct s as [|c s]; cbn [split_on]; [by eauto|].
  destruct (Ascii.eqb c sep); [by eauto|]. destruct (split_on sep s); by eauto.
Qed.

Lemma split_on_join (sep : ascii) (s : string) :
  join (String sep EmptyString) (split_on sep s) = s.
Proof.
  induction s as [|c s IH]; [done|]. cbn [split_on].
  destruct (split_on_cons sep s) as (w & ws & Hsplit). rewrite Hsplit in *.
  destruct (Ascii.eqb c sep) eqn:Hc.
  - apply Ascii.eqb_eq in Hc as ->.
    change (join (String sep EmptyString) (EmptyString :: w :: ws))
      with (EmptyString +:+ String sep EmptyString +:+ join (String sep EmptyString) (w :: ws)).
    by rewrite IH.
  - destruct ws as [|w' ws'].
    + cbn [join] in *. by rewrite IH.
    + change (join (String sep EmptyString) (String c w :: w' :: ws'))
        with (String c w +:+ String sep EmptyString
              +:+ join (String sep EmptyString) (w' :: ws')).
      rewrite append_cons. f_equal. exact IH.
Qed.

Lemma split_on_pieces (sep : ascii) (s : string) :
  Forall (λ w, has_char sep w = false) (split_on sep s).
Proof.
  induction s as [|c s IH]; [by repeat constructor|]. cbn [split_on].
  destruct (Ascii.eqb c sep) eqn:Hc; [by constructor|].
  destruct (split_on sep s) as [|w ws]; [repeat constructor; cbn; by rewrite Hc|].
  apply Forall_cons in IH as [Hw Hws]. constructor; [|exact Hws].
  cbn. by rewrite Hc, Hw.
Qed.

(** X11: the list of allowed languages is the variable ALLOWED_LANGUAGES (or
    its default) cut at every comma: joining the entries with commas gives the
    variable back, no entry contains a comma, and the list is never empty.
    Nothing is trimmed, so white space around an entry is part of it. *)
Theorem allowedLanguages_split (env : gmap string string) :
  join "," (allowedLanguages (SANDBOX_LIMITS env))
  = env_or env "ALLOWED_LANGUAGES" "javascript,python"
  ∧ Forall (λ w, has_char "," w = false) (allowedLanguages (SANDBOX_LIMITS env))
  ∧ allowedLanguages (SANDBOX_LIMITS env) ≠ [].
Proof.
  unfold SANDBOX_LIMITS. cbn [allowedLanguages].
  split; [apply split_on_join|]. split; [apply split_on_pieces|].
  destruct (split_on_cons "," (env_or env "ALLOWED_LANGUAGES" "javascript,python"))
    as (w & ws & ->). done.
Qed.



(** ** The execute handler *)

(** X13: the handler never runs code for a request whose payment is not marked
    verified.  Whatever the body, such a request is answered 400 (invalid
    body) or 500 (payment state invalid) and the host is left untouched: no
    clock reading, no random byte, no isolate. *)
Theorem unverified_payment_never_executes (h : Host) (req : X402Request) (s : State) :
  payment_verified req = false →
  ∃ resp, executeHandler h req s = (Returned resp, s)
    ∧ ((status resp = 400 ∧ ∃ issues, safeParse ExecuteRequestSchema (req_body req) = inr issues
                                      ∧ body resp = InvalidRequest "Invalid Request"
                                                      "Request validation failed" issues)
       ∨ (status resp = 500
          ∧ body resp = Failure "Internal Server Error" "Payment verification state invalid")).
Proof.
  unfold payment_verified, executeHandler, try_catch, ret. intros Hunverified.
  destruct (safeParse ExecuteRequestSchema (req_body req)) as [data|issues].
  - destruct (x402Payment req) as [p|]; [rewrite Hunverified; cbn [negb]|];
      eexists; (split; [reflexivity|]); right; by split.
  - eexists. split; [reflexivity|]. left. split; [reflexivity|]. by exists issues.
Qed.

Lemma unverified_payment_never_executes_witness :
  ∃ resp, executeHandler (sample_host ∅ quiet_ivm) unpaid_basic_request initial_state
          = (Returned resp, initial_state)
    ∧ status resp = 500.
Proof.
  destruct (unverified_payment_never_executes (sample_host ∅ quiet_ivm)
              unpaid_basic_request initial_state eq_refl) as (resp & Hrun & Hstatus).
  exists resp. split; [exact Hrun|].
  destruct Hstatus as [(_ & issues & Hbad & _) | (H500 & _)]; [|exact H500].
  vm_compute in Hbad. discriminate.
Defined.



(** ** The request schema, accepted bodies *)

Lemma enum_lookup_languages (s : string) (l : Language) :
  enum_lookup [("javascript", javascript); ("python", python)] s = Some l →
  s = language_name l.
Proof.
  cbn [enum_lookup].
  destruct (String.eqb_spec s "javascript") as [->|_]; [by intros [= <-]|].
  destruct (String.eqb_spec s "python") as [->|_]; [by intros [= <-]|]. done.
Qed.

Lemma enum_lookup_tiers (s : string) (t : Tier) :
  enum_lookup [("basic", basic); ("standard", standard); ("premium", premium)] s = Some t →
  s = tier_name t.
Proof.
  cbn [enum_lookup].
  destruct (String.eqb_spec s "basic") as [->|_]; [by intros [= <-]|].
  destruct (String.eqb_spec s "standard") as [->|_]; [by intros [= <-]|].
  destruct (String.eqb_spec s "premium") as [->|_]; [by intros [= <-]|]. done.
Qed.

(** X15: what the handler passes to the executor is what the body says.  When
    validation succeeds the body is an object whose code is the validated
    code, a string of 1 to 10000 characters, whose language and tier are the
    names of the validated language and tier, and whose timeout is the
    validated number or is absent. *)
Theorem accepted_body_is_faithful (body : json) (data : ExecutionRequest) :
  safeParse ExecuteRequestSchema body = inl data →
  ∃ fields, body = JObject fields
    ∧ obj_get "code" fields = JString (req_code data)
    ∧ 1 <= Z.of_nat (String.length (req_code data)) <= 10000
    ∧ obj_get "language" fields = JString (language_name (req_language data))
    ∧ obj_get "tier" fields = JString (tier_name (req_tier data))
    ∧ obj_get "timeout" fields = match req_timeout data with
                                 | Some z => JNumber z
                                 | None => JUndefined
                                 end.
Proof.
  unfold safeParse, ExecuteRequestSchema.
  destruct body as [| |b|z|str|items|fields]; try discriminate.
  intros Hok. exists fields. split; [reflexivity|].
  unfold z_string, z_enum, z_optional, z_number in Hok.
  destruct (obj_get "code" fields) as [| |b|z|c|items|o]; try discriminate.
  cbn [map concat string_check_issues app] in Hok.
  destruct (Z.of_nat (String.length c) <? 1) eqn:Hmin; [discriminate|].
  destruct (10000 <? Z.of_nat (String.length c)) eqn:Hmax; [discriminate|].
  cbn [app] in Hok.
  destruct (obj_get "language" fields) as [| |b|z|l|items|o]; try discriminate.
  destruct (enum_lookup _ l) as [lang|] eqn:Hlang; [|discriminate].
  destruct (obj_get "tier" fields) as [| |b|z|t|items|o]; try discriminate.
  destruct (enum_lookup _ t) as [tr|] eqn:Htier; [|discriminate].
  apply enum_lookup_languages in Hlang as ->. apply enum_lookup_tiers in Htier as ->.
  destruct (obj_get "timeout" fields) as [| |b|z|tm|items|o]; try discriminate;
    injection Hok as <-; cbn; (repeat split; try reflexivity; lia).
Qed.

Lemma accepted_body_is_faithful_witness :
  ∃ data, safeParse ExecuteRequestSchema
            (JObject [("tier", JString "premium"); ("debug", JBool true);
                      ("code", JString "1"); ("language", JString "javascript");
                      ("timeout", JNumber 250)]) = inl data
    ∧ req_code data = "1" ∧ req_tier data = premium ∧ req_timeout data = Some 250.
Proof.
  eexists. split; [reflexivity|].
  match goal with
  | |- req_code ?d = _ ∧ _ =>
      pose proof (accepted_body_is_faithful
                    (JObject [("tier", JString "premium"); ("debug", JBool true);
                              ("code", JString "1"); ("language", JString "javascript");
                              ("timeout", JNumber 250)]) d eq_refl) as Hfaithful
  end.
  repeat split; reflexivity.
Defined.

(** X16: the schema accepts exactly the bodies in which no field is violated.
    An object body passes validation if and only if none of code, language,
    tier and timeout violates the schema; keys beyond those four are
    ignored. *)
Theorem accepted_iff_no_field_violated (fields : list (string * json)) :
  (∃ data, safeParse ExecuteRequestSchema (JObject fields) = inl data)
  ↔ (∀ field, field_violated field fields = false).
Proof.
  split.
  - intros [data Hok] field.
    destruct (field_violated field fields) eqn:Hbad; [|reflexivity].
    destruct (violated_field_collected fields field Hbad) as (issue & Hin & _).
    unfold safeParse in Hok. rewrite ExecuteRequestSchema_collects in Hok; [discriminate|].
    intros Hnil. rewrite Hnil in Hin. by apply elem_of_nil in Hin.
  - intros Hclean.
    pose proof (Hclean "code") as Hcode. pose proof (Hclean "language") as Hlang.
    pose proof (Hclean "tier") as Htier. pose proof (Hclean "timeout") as Htmo.
    unfold field_violated in Hcode, Hlang, Htier, Htmo.
    cbn [String.eqb Ascii.eqb Bool.eqb] in Hcode, Hlang, Htier, Htmo.
    unfold safeParse, ExecuteRequestSchema, z_string, z_enum, z_optional, z_number.
    destruct (obj_get "code" fields) as [| |b|z|c|items|o]; try discriminate.
    apply orb_false_elim in Hcode as [Hzero Hbig].
    cbn [map concat string_check_issues app].
    assert ((Z.of_nat (String.length c) <? 1) = false) as ->.
    { apply Nat.eqb_neq in Hzero. apply Z.ltb_ge. lia. }
    rewrite Hbig. cbn [app].
    destruct (obj_get "language" fields) as [| |b|z|l|items|o]; try discriminate.
    destruct (obj_get "tier" fields) as [| |b|z|t|items|o]; try discriminate.
    apply negb_false_iff in Hlang, Htier. cbn [enum_lookup].
    assert (∃ lang, (if String.eqb l "javascript" then Some javascript
                     else if String.eqb l "python" then Some python else None)
                    = Some lang) as [lang ->].
    { destruct (String.eqb l "javascript"); [by eauto|].
      destruct (String.eqb l "python"); [by eauto|]. discriminate. }
    assert (∃ tr, (if String.eqb t "basic" then Some basic
                   else if String.eqb t "standard" then Some standard
                   else if String.eqb t "premium" then Some premium else None)
                  = Some tr) as [tr ->].
    { destruct (String.eqb t "basic"); [by eauto|].
      destruct (String.eqb t "standard"); [by eauto|].
      destruct (String.eqb t "premium"); [by eauto|]. discriminate. }
    destruct (obj_get "timeout" fields) as [| |b|z|tm|items|o]; try discriminate;
      by eexists.
Qed.

(** X17: a body that is not an object is refused as a whole: the handler
    answers 400 with a single invalid-type issue at the root path, and no
    field is named. *)
Theorem non_object_body_refused_at_root (h : Host) (req : X402Request) (s : State) :
  (∀ fields, req_body req ≠ JObject fields) →
  executeHandler h req s
  = (Returned {| status := 400;
                 body := InvalidRequest "Invalid Request" "Request validation failed"
                           [{| issue_code := invalid_type; issue_path := [];
                               issue_message := None |}] |}, s).
Proof.
  intros Hshape. apply executeHandler_invalid. unfold safeParse, ExecuteRequestSchema.
  destruct (req_body req) as [| |b|z|str|items|fields]; try reflexivity.
  by destruct (Hshape fields).
Qed.

Lemma non_object_body_refused_at_root_witness :
  executeHandler (sample_host ∅ quiet_ivm)
    {| x_payment_header := None; req_path := "/api/execute";
       req_body := JArray [JString "2+2"]; x402Payment := None |} initial_state
  = (Returned {| status := 400;
                 body := InvalidRequest "Invalid Request" "Request validation failed"
                           [{| issue_code := invalid_type; issue_path := [];
                               issue_message := None |}] |}, initial_state).
Proof.
  apply non_object_body_refused_at_root. intros fields. discriminate.
Defined.

(** ** Successive requests *)

(** X18: requests do not share host resources.  Two calls of [execute] in a
    row take their execution ids from disjoint runs of sixteen random bytes,
    read the clock six times in all, and leave behind at most two new
    isolates, all of them disposed. *)
Theorem successive_requests_are_separate (h : Host) (q1 q2 : ExecutionRequest)
    (s s1 s2 : State) (r1 r2 : ExecutionResult) :
  execute h q1 s = (Returned r1, s1) →
  execute h q2 s1 = (Returned r2, s2) →
  executionId r1 = nanoid_from h 16 (drawn s)
  ∧ executionId r2 = nanoid_from h 16 (drawn s + 16)
  ∧ ticks s2 = (ticks s + 6)%nat
  ∧ (length (new_isolates s s2) <= 2)%nat
  ∧ Forall (λ iso, disposed iso = true) (new_isolates s s2).
Proof.
  intros Hrun1 Hrun2.
  destruct (execute_inversion h q1 s) as (r & s' & Hrun & _ & Hid1 & _).
  rewrite Hrun1 in Hrun. injection Hrun as <- <-.
  destruct (execute_inversion h q2 s1) as (r & s' & Hrun & _ & Hid2 & _).
  rewrite Hrun2 in Hrun. injection Hrun as <- <-.
  destruct (execute_accounting h q1 s) as (r & s' & Hrun & Hticks1 & Hdrawn1 & _).
  rewrite Hrun1 in Hrun. injection Hrun as <- <-.
  destruct (execute_accounting h q2 s1) as (r & s' & Hrun & Hticks2 & _).
  rewrite Hrun2 in Hrun. injection Hrun as <- <-.
  destruct (execute_isolates h q1 s) as (l1 & Hiso1 & Hl1).
  destruct (execute_isolates h q2 s1) as (l2 & Hiso2 & Hl2).
  rewrite Hrun1 in Hiso1. rewrite Hrun2 in Hiso2. cbn [snd] in Hiso1, Hiso2.
  split; [exact Hid1|]. split; [by rewrite Hid2, Hdrawn1|]. split; [lia|].
  assert (Hnew : new_isolates s s2 = l1 ++ l2).
  { apply new_isolates_app. by rewrite Hiso2, Hiso1, app_assoc. }
  rewrite Hnew.
  assert (Hone : ∀ q l, (l = [] ∨ ∃ rts, l = [finished_isolate (memory (TIER_LIMITS (req_tier q))) rts]
                                        ∧ (rts = [] ∨ rts = [execute_timeout q])) →
                        (length l <= 1)%nat ∧ Forall (λ iso, disposed iso = true) l).
  { intros q l [-> | (rts & -> & _)]; cbn; split; try lia; by repeat constructor. }
  destruct (Hone q1 l1 Hl1) as [Hlen1 Hall1]. destruct (Hone q2 l2 Hl2) as [Hlen2 Hall2].
  split; [rewrite length_app; lia|]. by apply Forall_app.
Qed.

Lemma successive_requests_are_separate_witness :
  ∃ r1 s1 r2 s2,
    execute (sample_host ∅ quiet_ivm) (sample_request basic None) initial_state
      = (Returned r1, s1)
    ∧ execute (sample_host ∅ quiet_ivm) (sample_request premium None) s1
      = (Returned r2, s2)
    ∧ executionId r1 = "uU6Z7wRaW9gxrIoF"
    ∧ executionId r2 ≠ executionId r1
    ∧ ticks s2 = 6%nat.
Proof.
  destruct (execute (sample_host ∅ quiet_ivm) (sample_request basic None) initial_state)
    as [o1 s1] eqn:Hrun1.
  pose proof Hrun1 as Hval1. vm_compute in Hval1.
  injection Hval1 as Ho1 Hs1. subst o1 s1.
  match type of Hrun1 with
  | _ = (_, ?s1) =>
      destruct (execute (sample_host ∅ quiet_ivm) (sample_request premium None) s1)
        as [o2 s2] eqn:Hrun2
  end.
  pose proof Hrun2 as Hval2. vm_compute in Hval2.
  injection Hval2 as Ho2 Hs2. subst o2 s2.
  do 4 eexists. split; [reflexivity|]. split; [exact Hrun2|].
  destruct (successive_requests_are_separate _ _ _ _ _ _ _ _ Hrun1 Hrun2)
    as (Hid1 & Hid2 & Hticks & _).
  split; [reflexivity|]. split; [|exact Hticks].
  cbn. discriminate.
Defined.

(** ** The free endpoints *)

(** X19: what the status endpoint advertises is what the executor enforces.
    The handler always answers 200 with a one-minute cache header after a
    single reading of the clock, touching no isolate; for every tier the
    timeout and memory it advertises are those of [TIER_LIMITS], the price is
    the configured price, and the languages listed are the allowed languages
    the executor checks. *)
Theorem status_advertises_enforced_limits (h : Host) (uptime : number) (s : State) :
  ∃ payload,
    statusHandler h uptime s
    = (Returned {| info_status := 200;
                   info_cache_control := Some "public, max-age=60";
                   info_body := inl payload |},
       {| ticks := S (ticks s); drawn := drawn s; isolates := isolates s |})
    ∧ st_timestamp payload = host_clock h (ticks s)
    ∧ sc_languages (st_capabilities payload)
      = allowedLanguages (sandbox (CONFIG (host_env h)))
    ∧ ∀ t, offer_timeout (offer (st_pricing payload) t) = timeout (TIER_LIMITS t)
           ∧ offer_memory (offer (st_pricing payload) t) = memory (TIER_LIMITS t)
           ∧ offer_price (offer (st_pricing payload) t) = price (PRICING (host_env h)) t.
Proof.
  eexists. split; [reflexivity|]. cbn [st_timestamp st_capabilities sc_languages st_pricing].
  split; [reflexivity|]. split; [reflexivity|].
  intros t. destruct t; repeat split; reflexivity.
Qed.

Lemma hex_of_bytes_slice (k : nat) (bs : list Z) :
  String.substring 0 (2 * k) (hex_of_bytes bs) = hex_of_bytes (take k bs).
Proof.
  revert bs. induction k as [|k IH]; intros bs.
  - cbn. by destruct (hex_of_bytes bs).
  - replace (2 * S k)%nat with (S (S (2 * k))) by lia.
    destruct bs as [|b bs]; [done|].
    cbn [hex_of_bytes hex_byte String.substring take]. by rewrite IH.
Qed.

Lemma attestation_hash_truncated (text : string) :
  attestation_hash text = "0x" +:+ hex_of_bytes (take 32 (utf8 text)).
Proof.
  unfold attestation_hash. change 64%nat with (2 * 32)%nat.
  by rewrite hex_of_bytes_slice.
Qed.

(** X20: the identity attestation of the verify endpoint is not a digest of
    the wallet.  The handler always answers 200 with a five-minute cache
    header after two readings of the clock; the identity "hash" it lists is
    "0x" followed by the hexadecimal text of the first 32 bytes of the base
    wallet address, the capability "hash" is the hexadecimal text of
    "sandbox-executor"; so two addresses that agree on their first 32 bytes
    get the same identity attestation. *)
Theorem identity_attestation_is_truncated_hex (h : Host) (s : State) :
  (∃ payload,
     verifyHandler h s
     = (Returned {| info_status := 200;
                    info_cache_control := Some "public, max-age=300";
                    info_body := inl payload |},
        {| ticks := S (S (ticks s)); drawn := drawn s; isolates := isolates s |})
     ∧ vf_trust_verifiedAt payload = host_clock h (ticks s)
     ∧ vf_timestamp payload = host_clock h (S (ticks s))
     ∧ vf_trust_attestations payload
       = [{| att_type := "identity";
             att_hash := "0x" +:+ hex_of_bytes
                                    (take 32 (utf8 (base (wallets (CONFIG (host_env h)))))) |};
          {| att_type := "capability";
             att_hash := "0x73616e64626f782d6578656375746f72" |}])
  ∧ ∀ w1 w2, take 32 (utf8 w1) = take 32 (utf8 w2) →
             attestation_hash w1 = attestation_hash w2.
Proof.
  split.
  - eexists. split; [reflexivity|].
    cbn [vf_trust_verifiedAt vf_timestamp vf_trust_attestations].
    split; [reflexivity|]. split; [reflexivity|].
    by rewrite attestation_hash_truncated.
  - intros w1 w2 Hsame. by rewrite !attestation_hash_truncated, Hsame.
Qed.

Lemma identity_attestation_is_truncated_hex_witness :
  "0x11c24Fbcd702cd611729F8402d8fB51ECa75Ba83" ≠ "0x11c24Fbcd702cd611729F8402d8fB51E0000000000"
  ∧ attestation_hash "0x11c24Fbcd702cd611729F8402d8fB51ECa75Ba83"
    = attestation_hash "0x11c24Fbcd702cd611729F8402d8fB51E0000000000".
Proof.
  split; [discriminate|].
  assert (Hsame : take 32 (utf8 "0x11c24Fbcd702cd611729F8402d8fB51ECa75Ba83")
                  = take 32 (utf8 "0x11c24Fbcd702cd611729F8402d8fB51E0000000000"))
    by (vm_compute; reflexivity).
  exact (proj2 (identity_attestation_is_truncated_hex (sample_host ∅ quiet_ivm) initial_state)
           _ _ Hsame).
Defined.

(** ** Timeouts below the ceiling *)

Lemma reached_run_recorded (h : Host) (request : ExecutionRequest) (s : State) :
  language_accepted h request = true →
  ivm_construct (host_ivm h) (length (isolates s))
                (memory (TIER_LIMITS (req_tier request))) = None →
  run_reached h (length (isolates s)) (req_code request) = true →
  new_isolates s (execute h request s).2
  = [finished_isolate (memory (TIER_LIMITS (req_tier request))) [execute_timeout request]].
Proof.
  intros Hacc Hnew Hreached.
  destruct (execute_inversion h request s) as (r & s' & -> & _ & _ & _ & Hcase).
  cbn [snd]. apply new_isolates_app.
  destruct Hcase as [used _ _ _ _ _ _ _ _ Hiso | Hrefused _ _ | e _ Hsome _ _
                    | e _ _ _ _ Hiso]; try congruence.
  by rewrite Hiso, Hreached.
Qed.

(** X21: the caller's timeout has no lower bound.  A negative caller timeout
    is below every ceiling, so it is the effective timeout, and when the
    script is compiled the run is started with that negative value. *)
Theorem negative_timeout_passed_to_run (h : Host) (request : ExecutionRequest) (s : State)
    (t : Z) :
  req_timeout request = Some t → t < 0 →
  language_accepted h request = true →
  ivm_construct (host_ivm h) (length (isolates s))
                (memory (TIER_LIMITS (req_tier request))) = None →
  run_reached h (length (isolates s)) (req_code request) = true →
  execute_timeout request = t
  ∧ new_isolates s (execute h request s).2
    = [{| memoryLimit := memory (TIER_LIMITS (req_tier request));
          disposed := true;
          run_timeouts := [t] |}].
Proof.
  intros Ht Hneg Hacc Hnew Hreached.
  assert (Heff : execute_timeout request = t).
  { rewrite (execute_timeout_truthy request t Ht) by lia.
    destruct (req_tier request); cbn; lia. }
  split; [exact Heff|].
  rewrite (reached_run_recorded h request s Hacc Hnew Hreached). by rewrite Heff.
Qed.

Lemma negative_timeout_passed_to_run_witness :
  execute_timeout (sample_request basic (Some (-5))) = -5
  ∧ new_isolates initial_state
      (execute (sample_host ∅ quiet_ivm) (sample_request basic (Some (-5))) initial_state).2
    = [{| memoryLimit := 64; disposed := true; run_timeouts := [-5] |}].
Proof.
  assert (Hneg : -5 < 0) by lia.
  assert (Hacc : language_accepted (sample_host ∅ quiet_ivm)
                   (sample_request basic (Some (-5))) = true)
    by (vm_compute; reflexivity).
  exact (negative_timeout_passed_to_run (sample_host ∅ quiet_ivm)
           (sample_request basic (Some (-5))) initial_state (-5)
           eq_refl Hneg Hacc eq_refl eq_refl).
Defined.
